(** * NBA data lake: query polling and ingestion

    A shallow embedding of the two programs of the repository,

      - [src/nba_visualization.py]   (submit an Athena query, poll it,
                                      resolve the result path, render it)
      - [src/setup_nba_data_lake.py] (create bucket and catalog, fetch the
                                      feed, upload it as JSON lines)

    and the properties the specification states about them.

    Both programs talk to services the repository does not contain (the
    boto3 clients, [requests], [time], [print]).  Each such call is an
    entry of a chronological trace, and what the service answers is given
    by an environment record, so that a statement quantifies over every
    behaviour of the services. *)

From Stdlib Require Import String Ascii List Bool Arith ZArith NArith Lia.
From Stdlib Require Import DecimalString DecimalZ DecimalPos DecimalFacts.
Import ListNotations.
Local Open Scope string_scope.
Local Open Scope list_scope.

(* ================================================================= *)
(** ** The Python runtime the programs rely on *)

Module Py.

(** An instance of [Exception] or of one of its subclasses: the class name
    and [str(error)].  Everything the libraries raise ([botocore]'s
    [ClientError], [requests]' [ConnectionError] and [HTTPError],
    [json]'s [JSONDecodeError], [TypeError]) derives from [Exception], so
    [except Exception] catches every value of this type. *)
Record exn : Type := Exn { exn_class : string; exn_msg : string }.

(** [Exception(msg)] *)
Definition Exception (msg : string) : exn := Exn "Exception" msg.

(** [TypeError(msg)] *)
Definition TypeError (msg : string) : exn := Exn "TypeError" msg.

(** What a call into a library gives back: a value, or a raised exception. *)
Inductive reply (A : Type) : Type :=
| Reply (a : A)
| Throws (e : exn).
Arguments Reply {A} a.
Arguments Throws {A} e.

(** How the run of a piece of program ends.  [OutOfFuel] stands for a
    [while True] loop that has not left after the iterations it was
    given. *)
Inductive outcome (A : Type) : Type :=
| Returned (a : A)
| Raised (e : exn)
| OutOfFuel.
Arguments Returned {A} a.
Arguments Raised {A} e.
Arguments OutOfFuel {A}.

Section Prog.
Variable event : Type.

(** A program maps the trace so far to its outcome and the extended trace. *)
Definition prog (A : Type) : Type := list event -> outcome A * list event.

Definition ret {A : Type} (a : A) : prog A := fun t => (Returned a, t).

Definition bind {A B : Type} (m : prog A) (k : A -> prog B) : prog B :=
  fun t =>
    match m t with
    | (Returned a, t') => k a t'
    | (Raised e, t') => (Raised e, t')
    | (OutOfFuel, t') => (OutOfFuel, t')
    end.

(** [raise e] *)
Definition raise {A : Type} (e : exn) : prog A := fun t => (Raised e, t).

(** the loop is still running when the fuel is spent *)
Definition out_of_fuel {A : Type} : prog A := fun t => (OutOfFuel, t).

(** an effect without a result worth a name: [print], [time.sleep] *)
Definition emit (e : event) : prog unit := fun t => (Returned tt, t ++ [e]).

(** a library call: the call is recorded, then it returns or raises *)
Definition call {A : Type} (e : event) (r : reply A) : prog A :=
  fun t =>
    (match r with Reply a => Returned a | Throws x => Raised x end, t ++ [e]).

(** [try: body  except Exception as error: handler(error)] *)
Definition try_except {A : Type} (body : prog A) (handler : exn -> prog A)
  : prog A :=
  fun t =>
    match body t with
    | (Raised e, t') => handler e t'
    | r => r
    end.

End Prog.

Arguments ret {event A} a _.
Arguments bind {event A B} m k _.
Arguments raise {event A} e _.
Arguments out_of_fuel {event A} _.
Arguments emit {event} e _.
Arguments call {event A} e r _.
Arguments try_except {event A} body handler _.

(** [x in xs] for a list of strings ([==] on [str]) *)
Definition str_in (x : string) (xs : list string) : bool :=
  existsb (String.eqb x) xs.

End Py.

Import Py.

Declare Scope prog_scope.
Delimit Scope prog_scope with prog.
Notation "x <- m ;; k" := (bind m (fun x => k))
  (at level 61, m at next level, right associativity) : prog_scope.
Notation "m ;; k" := (bind m (fun _ => k))
  (at level 61, right associativity) : prog_scope.
Local Open Scope prog_scope.

(* ================================================================= *)
(** ** [nba_visualization.py] *)

Module nba_visualization.

(** Everything the program does to the outside, in the order it does it. *)
Inductive event : Type :=
| StartQueryExecution (QueryString Database OutputLocation : string)
| GetQueryExecution (QueryExecutionId : string)
| Sleep (seconds : nat)
| Stdout (msg : string)
| ReadCsv (file_path : string)
| ShowBarplot (data : string).

(** The services behind the program.  [get_query_execution id n] is what
    the n-th status request for [id] (counted from 0) answers: the
    [State] field of the response, or an exception; so an engine is any
    sequence of statuses per handle.  [start_query_execution] answers
    with the [QueryExecutionId] of the response. *)
Record services : Type := {
  start_query_execution : string -> string -> string -> reply string;
  get_query_execution : string -> nat -> reply string;
  read_csv : string -> reply string;
  plt_show : string -> reply unit
}.

Definition region : string := "us-west-2".
Definition database_name : string := "glue_nba_data_lake".
Definition query_output_location : string := "s3://players-nba/raw-data/".

Definition is_poll_of (id : string) (e : event) : bool :=
  match e with
  | GetQueryExecution id' => String.eqb id id'
  | _ => false
  end.

(** the number of status requests for [id] made so far *)
Definition polls_of (id : string) (t : list event) : nat :=
  length (filter (is_poll_of id) t).

Definition print (msg : string) : prog event unit := emit (Stdout msg).

Definition time_sleep (seconds : nat) : prog event unit := emit (Sleep seconds).

Section Program.
Variable athena_client : services.

(** [athena_client.get_query_execution(QueryExecutionId=id)] followed by
    [status["QueryExecution"]["Status"]["State"]] *)
Definition poll (id : string) : prog event string :=
  fun t =>
    call (GetQueryExecution id)
         (get_query_execution athena_client id (polls_of id t)) t.

Definition query_athena (database query output_location : string)
  : prog event string :=
  call (StartQueryExecution query database output_location)
       (start_query_execution athena_client query database output_location).

(** The [while True] loop of [fetch_query_results], one unit of fuel per
    iteration; it returns the [state] it left with. *)
Fixpoint poll_until_done (fuel : nat) (query_execution_id : string)
  : prog event string :=
  match fuel with
  | O => out_of_fuel
  | S fuel' =>
      state <- poll query_execution_id ;;
      if str_in state ["SUCCEEDED"; "FAILED"] then ret state
      else (time_sleep 2 ;; poll_until_done fuel' query_execution_id)
  end.

Definition fetch_query_results (fuel : nat)
    (query_execution_id output_location : string) : prog event string :=
  state <- poll_until_done fuel query_execution_id ;;
  if String.eqb state "SUCCEEDED" then
    print "Query succeeded!" ;;
    let result_s3_path :=
      (output_location ++ query_execution_id ++ ".csv")%string in
    print ("Query results saved to: " ++ result_s3_path)%string ;;
    ret result_s3_path
  else raise (Exception "Query failed!").

(** [pd.read_csv(file_path)], then the bar plot and [plt.show()] *)
Definition visualize_data (file_path : string) : prog event unit :=
  data <- call (ReadCsv file_path) (read_csv athena_client file_path) ;;
  call (ShowBarplot data) (plt_show athena_client data).

Definition newline : string := String "010"%char EmptyString.

Definition sql_query : string :=
  (newline ++ "    SELECT Team, Points" ++ newline ++
   "    FROM nba_players" ++ newline ++ "    ")%string.

Definition main (fuel : nat) : prog event unit :=
  print "Running Athena query..." ;;
  query_execution_id <-
    query_athena database_name sql_query query_output_location ;;
  print "Fetching query results..." ;;
  result_s3_path <-
    fetch_query_results fuel query_execution_id query_output_location ;;
  print "Visualizing data..." ;;
  visualize_data result_s3_path.

End Program.

(** *** Vocabulary of the statements *)

(** the statuses the specification calls terminal *)
Definition terminal (state : string) : bool :=
  str_in state ["SUCCEEDED"; "FAILED"; "CANCELLED"].

(** the test that ends the loop of [fetch_query_results] *)
Definition leaves (state : string) : bool :=
  str_in state ["SUCCEEDED"; "FAILED"].

(** one round of the loop that does not leave it *)
Definition round (id : string) : list event := [GetQueryExecution id; Sleep 2].

(** [n] rounds *)
Fixpoint rounds (n : nat) (id : string) : list event :=
  match n with
  | O => []
  | S n' => round id ++ rounds n' id
  end.

Definition is_submission (e : event) : bool :=
  match e with
  | StartQueryExecution _ _ _ => true
  | _ => false
  end.

Definition submissions (t : list event) : nat :=
  length (filter is_submission t).

Definition is_read (e : event) : bool :=
  match e with
  | ReadCsv _ => true
  | _ => false
  end.

(** the result files read so far *)
Definition reads (t : list event) : list event := filter is_read t.

Definition slept (t : list event) : nat :=
  fold_right (fun e acc => match e with Sleep s => s + acc | _ => acc end) 0 t.

End nba_visualization.

(* ================================================================= *)
(** ** JSON values and [json.dumps] *)

Module Json.

(** A Python [str]: its code points. *)
Definition pystr : Type := list N.

(** The code points of an ASCII literal of the program text. *)
Definition of_ascii_text (s : string) : pystr :=
  map N_of_ascii (list_ascii_of_string s).

(** What [response.json()] can return, and so what [json.dumps] meets: the
    values [json.loads] builds from a JSON text whose numbers are integers
    ([None], [bool], [int], [str], [list], [dict] with [str] keys, in
    insertion order). *)
Unset Elimination Schemes.
Inductive json : Type :=
| JNull
| JBool (b : bool)
| JInt (z : Z)
| JStr (s : pystr)
| JArr (items : list json)
| JObj (members : list (pystr * json)).
Set Elimination Schemes.

(** [bool(value)] *)
Definition py_truthy (v : json) : bool :=
  match v with
  | JNull => false
  | JBool b => b
  | JInt z => negb (Z.eqb z 0)
  | JStr s => negb (Nat.eqb (length s) 0)
  | JArr items => negb (Nat.eqb (length items) 0)
  | JObj members => negb (Nat.eqb (length members) 0)
  end.

(** [type(value).__name__] *)
Definition py_type_name (v : json) : string :=
  match v with
  | JNull => "NoneType"
  | JBool _ => "bool"
  | JInt _ => "int"
  | JStr _ => "str"
  | JArr _ => "list"
  | JObj _ => "dict"
  end.

(** [iter(value)]: what a [for record in value] runs over; [None] where
    Python raises [TypeError] *)
Definition py_iter (v : json) : option (list json) :=
  match v with
  | JArr items => Some items
  | JObj members => Some (map (fun kv => JStr (fst kv)) members)
  | JStr s => Some (map (fun c => JStr [c]) s)
  | _ => None
  end.

Definition dquote : ascii := "034"%char.
Definition backslash : ascii := "092"%char.
Definition newline : ascii := "010"%char.

Definition str1 (c : ascii) : string := String c EmptyString.

(** [str(n)] for an [int] *)
Definition str_of_int (z : Z) : string := NilZero.string_of_int (Z.to_int z).

Definition hex_digit (n : N) : ascii :=
  nth (N.to_nat n)
      ["0"; "1"; "2"; "3"; "4"; "5"; "6"; "7"; "8"; "9";
       "a"; "b"; "c"; "d"; "e"; "f"]%char "0"%char.

(** ['{0:04x}'.format(n)] for [n < 0x10000] *)
Definition hex4 (n : N) : string :=
  String (hex_digit (N.land (N.shiftr n 12) 15))
 (String (hex_digit (N.land (N.shiftr n 8) 15))
 (String (hex_digit (N.land (N.shiftr n 4) 15))
 (String (hex_digit (N.land n 15)) EmptyString))).

Definition u_escape (n : N) : string := String backslash (String "u" (hex4 n)).

(** [replace] of [json.encoder.py_encode_basestring_ascii]: the escape
    table first, then every character outside [' '..'~'] as a [\uXXXX]
    escape, a surrogate pair above the basic plane *)
Definition escape_char (c : N) : string :=
  if N.eqb c 92 then String backslash (str1 backslash)
  else if N.eqb c 34 then String backslash (str1 dquote)
  else if N.eqb c 8 then String backslash "b"
  else if N.eqb c 12 then String backslash "f"
  else if N.eqb c 10 then String backslash "n"
  else if N.eqb c 13 then String backslash "r"
  else if N.eqb c 9 then String backslash "t"
  else if N.leb 32 c && N.leb c 126 then str1 (ascii_of_N c)
  else if N.ltb c 65536 then u_escape c
  else
    let n := N.sub c 65536 in
    let s1 := N.lor 55296 (N.land (N.shiftr n 10) 1023) in
    let s2 := N.lor 56320 (N.land n 1023) in
    (u_escape s1 ++ u_escape s2)%string.

Definition encode_basestring_ascii (s : pystr) : string :=
  (str1 dquote ++ String.concat EmptyString (map escape_char s)
   ++ str1 dquote)%string.

(** [json.dumps(value)] with the default arguments: [ensure_ascii], the
    separators [', '] and [': '], no indentation *)
Fixpoint dumps (v : json) : string :=
  match v with
  | JNull => "null"
  | JBool true => "true"
  | JBool false => "false"
  | JInt z => str_of_int z
  | JStr s => encode_basestring_ascii s
  | JArr items =>
      ("[" ++ String.concat ", " (map dumps items) ++ "]")%string
  | JObj members =>
      ("{" ++ String.concat ", "
                (map (fun kv : pystr * json =>
                        let (k, x) := kv in
                        (encode_basestring_ascii k ++ ": " ++ dumps x)%string)
                     members)
           ++ "}")%string
  end.

(** *** The JSON grammar (RFC 8259), for texts in ASCII *)

Definition code (c : ascii) : nat := nat_of_ascii c.

Definition is_digit (c : ascii) : bool :=
  Nat.leb 48 (code c) && Nat.leb (code c) 57.

Definition is_digit1_9 (c : ascii) : bool :=
  Nat.leb 49 (code c) && Nat.leb (code c) 57.

Definition is_hexdig (c : ascii) : bool :=
  is_digit c || (Nat.leb 97 (code c) && Nat.leb (code c) 102)
             || (Nat.leb 65 (code c) && Nat.leb (code c) 70).

(** [unescaped = %x20-21 / %x23-5B / %x5D-...], here up to [%x7F] *)
Definition is_unescaped (c : ascii) : bool :=
  Nat.leb 32 (code c) && Nat.leb (code c) 127
  && negb (Nat.eqb (code c) 34) && negb (Nat.eqb (code c) 92).

Definition is_ws (c : ascii) : bool :=
  Nat.eqb (code c) 32 || Nat.eqb (code c) 9
  || Nat.eqb (code c) 10 || Nat.eqb (code c) 13.

(** [' ' .. '~'], the characters [ensure_ascii] leaves in the output *)
Definition printable (c : ascii) : bool :=
  Nat.leb 32 (code c) && Nat.leb (code c) 126.

Definition no_newline (c : ascii) : bool := negb (Ascii.eqb c newline).

Definition printable_or_newline (c : ascii) : bool :=
  printable c || Ascii.eqb c newline.

Fixpoint all_chars (p : ascii -> bool) (s : string) : bool :=
  match s with
  | EmptyString => true
  | String c s' => p c && all_chars p s'
  end.

(** [ws] *)
Definition json_ws (s : string) : Prop := all_chars is_ws s = true.

(** [int = zero / ( digit1-9 *DIGIT )] *)
Definition json_int (s : string) : Prop :=
  match s with
  | EmptyString => False
  | String c rest =>
      (c = "0"%char /\ rest = EmptyString)
      \/ (is_digit1_9 c = true /\ all_chars is_digit rest = true)
  end.

Definition json_digits1 (s : string) : Prop :=
  s <> EmptyString /\ all_chars is_digit s = true.

(** [number = [ minus ] int [ frac ] [ exp ]] *)
Definition json_number (s : string) : Prop :=
  exists sign int frac exp,
    s = (sign ++ int ++ frac ++ exp)%string
    /\ (sign = EmptyString \/ sign = "-")
    /\ json_int int
    /\ (frac = EmptyString
        \/ exists ds, frac = String "." ds /\ json_digits1 ds)
    /\ (exp = EmptyString
        \/ exists e sg ds,
             exp = (str1 e ++ sg ++ ds)%string
             /\ (e = "e"%char \/ e = "E"%char)
             /\ (sg = EmptyString \/ sg = "-" \/ sg = "+")
             /\ json_digits1 ds).

(** [*char] between the quotation marks of a string *)
Inductive json_chars : string -> Prop :=
| chars_nil : json_chars EmptyString
| chars_unescaped c s :
    is_unescaped c = true -> json_chars s -> json_chars (String c s)
| chars_escape c s :
    In c [dquote; backslash; "/"; "b"; "f"; "n"; "r"; "t"]%char ->
    json_chars s -> json_chars (String backslash (String c s))
| chars_u a b c d s :
    is_hexdig a = true -> is_hexdig b = true ->
    is_hexdig c = true -> is_hexdig d = true ->
    json_chars s ->
    json_chars
      (String backslash
         (String "u" (String a (String b (String c (String d s)))))).

Definition json_string (s : string) : Prop :=
  exists body, s = (str1 dquote ++ body ++ str1 dquote)%string
               /\ json_chars body.

(** [value], [array = [ value *( , value ) ]],
    [object = { member *( , member ) }], [member = string : value],
    with whitespace around the structural characters *)
Inductive json_value : string -> Prop :=
| value_null : json_value "null"
| value_true : json_value "true"
| value_false : json_value "false"
| value_number s : json_number s -> json_value s
| value_string s : json_string s -> json_value s
| value_array_empty w :
    json_ws w -> json_value ("[" ++ w ++ "]")%string
| value_array s :
    json_elements s -> json_value ("[" ++ s ++ "]")%string
| value_object_empty w :
    json_ws w -> json_value ("{" ++ w ++ "}")%string
| value_object s :
    json_members s -> json_value ("{" ++ s ++ "}")%string
with json_elements : string -> Prop :=
| elements_one w1 v w2 :
    json_ws w1 -> json_value v -> json_ws w2 ->
    json_elements (w1 ++ v ++ w2)%string
| elements_more w1 v w2 rest :
    json_ws w1 -> json_value v -> json_ws w2 -> json_elements rest ->
    json_elements (w1 ++ v ++ w2 ++ "," ++ rest)%string
with json_members : string -> Prop :=
| members_one w1 k w2 w3 v w4 :
    json_ws w1 -> json_string k -> json_ws w2 ->
    json_ws w3 -> json_value v -> json_ws w4 ->
    json_members (w1 ++ k ++ w2 ++ ":" ++ w3 ++ v ++ w4)%string
| members_more w1 k w2 w3 v w4 rest :
    json_ws w1 -> json_string k -> json_ws w2 ->
    json_ws w3 -> json_value v -> json_ws w4 -> json_members rest ->
    json_members
      (w1 ++ k ++ w2 ++ ":" ++ w3 ++ v ++ w4 ++ "," ++ rest)%string.


(** *** Lines of a blob *)

(** [s.split(sep)] for a one-character separator *)
Fixpoint split_on (sep : ascii) (s : string) : list string :=
  match s with
  | EmptyString => [EmptyString]
  | String c s' =>
      if Ascii.eqb c sep then EmptyString :: split_on sep s'
      else match split_on sep s' with
           | [] => [str1 c]
           | l :: ls => String c l :: ls
           end
  end.

(** The lines of a newline-delimited blob; the empty blob has none. *)
Definition lines_of (blob : string) : list string :=
  match blob with
  | EmptyString => []
  | _ => split_on newline blob
  end.


End Json.

(* ================================================================= *)
(** ** [setup_nba_data_lake.py] *)

Module setup_nba_data_lake.

Import Json.

(** The [TableInput] argument of [glue.create_table]. *)
Record table_input : Type := {
  Name : string;
  Columns : list (string * string);
  Location : string;
  InputFormat : string;
  OutputFormat : string;
  SerializationLibrary : string;
  TableType : string
}.

(** The [requests.Response] of the feed, as far as the program looks at
    it: [raise_for_status] reads the status line, [json()] decodes the
    body or raises. *)
Record response : Type := {
  status_code : nat;
  reason : string;
  url : string;
  body : reply json
}.

Inductive event : Type :=
| Stdout (msg : string)
| Sleep (seconds : nat)
| CreateBucket (Bucket : string) (LocationConstraint : option string)
| CreateDatabase (DbName Description : string)
| HttpGet (endpoint subscription_key : option string)
| PutObject (Bucket Key Body : string)
| CreateTable (DatabaseName : string) (TableInput : table_input)
| StartQueryExecution (QueryString Database OutputLocation : string).

(** The services behind the program and the process environment. *)
Record services : Type := {
  getenv : string -> option string;
  create_bucket : string -> option string -> reply unit;
  create_database : string -> string -> reply unit;
  requests_get : option string -> option string -> reply response;
  put_object : string -> string -> string -> reply unit;
  create_table : string -> table_input -> reply unit;
  start_query_execution : string -> string -> string -> reply string
}.

Definition REGION : string := "us-west-2".
Definition BUCKET_NAME : string := "sanalytics-data-lake".
Definition GLUE_DATABASE : string := "glue_nba_data_lake".
Definition ATHENA_OUTPUT : string :=
  ("s3://" ++ BUCKET_NAME ++ "/athena-results/")%string.

Definition print (msg : string) : prog event unit := emit (Stdout msg).

Definition time_sleep (seconds : nat) : prog event unit := emit (Sleep seconds).

(** [response.raise_for_status()]: [HTTPError] for a 4xx or 5xx status *)
Definition raise_for_status (r : response) : prog event unit :=
  let status := str_of_int (Z.of_nat (status_code r)) in
  if Nat.leb 400 (status_code r) && Nat.ltb (status_code r) 500 then
    raise (Exn "HTTPError"
             (status ++ " Client Error: " ++ reason r
                     ++ " for url: " ++ url r)%string)
  else if Nat.leb 500 (status_code r) && Nat.ltb (status_code r) 600 then
    raise (Exn "HTTPError"
             (status ++ " Server Error: " ++ reason r
                     ++ " for url: " ++ url r)%string)
  else ret tt.

(** [response.json()] *)
Definition response_json (r : response) : prog event json :=
  fun t =>
    (match body r with Reply v => Returned v | Throws e => Raised e end, t).

Section Program.
Variable aws : services.

Definition API_KEY : option string := getenv aws "SPORTSDATA_API_KEY".
Definition NBA_ENDPOINT : option string := getenv aws "NBA_ENDPOINT".

Definition initialize_s3_bucket : prog event unit :=
  try_except
    ((if String.eqb REGION "us-east-1" then
        call (CreateBucket BUCKET_NAME None) (create_bucket aws BUCKET_NAME None)
      else
        call (CreateBucket BUCKET_NAME (Some REGION))
             (create_bucket aws BUCKET_NAME (Some REGION))) ;;
     print ("S3 bucket '" ++ BUCKET_NAME ++ "' created successfully.")%string)
    (fun error =>
       print ("Failed to create S3 bucket: " ++ exn_msg error)%string).

Definition setup_glue_database : prog event unit :=
  try_except
    (call (CreateDatabase GLUE_DATABASE
             "Database for NBA sports analytics data.")
          (create_database aws GLUE_DATABASE
             "Database for NBA sports analytics data.") ;;
     print ("Glue database '" ++ GLUE_DATABASE
            ++ "' created successfully.")%string)
    (fun error =>
       print ("Error creating Glue database: " ++ exn_msg error)%string).

Definition retrieve_nba_data : prog event json :=
  try_except
    (response <- call (HttpGet NBA_ENDPOINT API_KEY)
                      (requests_get aws NBA_ENDPOINT API_KEY) ;;
     raise_for_status response ;;
     print "Successfully retrieved NBA data." ;;
     response_json response)
    (fun error =>
       print ("Error fetching NBA data: " ++ exn_msg error)%string ;;
       ret (JArr [])).

Definition format_as_jsonl (data : json) : prog event string :=
  print "Formatting data to line-delimited JSON." ;;
  match py_iter data with
  | Some records => ret (String.concat (str1 newline) (map dumps records))
  | None =>
      raise (TypeError ("'" ++ py_type_name data
                        ++ "' object is not iterable")%string)
  end.

Definition upload_to_s3 (content key : string) : prog event unit :=
  try_except
    (call (PutObject BUCKET_NAME key content)
          (put_object aws BUCKET_NAME key content) ;;
     print ("Uploaded data to S3 under key: " ++ key)%string)
    (fun error =>
       print ("Error uploading data to S3: " ++ exn_msg error)%string).

Definition nba_players : table_input := {|
  Name := "nba_players";
  Columns := [("PlayerID", "int"); ("FirstName", "string");
              ("LastName", "string"); ("Team", "string");
              ("Position", "string"); ("Points", "int")];
  Location := ("s3://" ++ BUCKET_NAME ++ "/raw-data/")%string;
  InputFormat := "org.apache.hadoop.mapred.TextInputFormat";
  OutputFormat :=
    "org.apache.hadoop.hive.ql.io.HiveIgnoreKeyTextOutputFormat";
  SerializationLibrary := "org.openx.data.jsonserde.JsonSerDe";
  TableType := "EXTERNAL_TABLE"
|}.

Definition define_glue_table : prog event unit :=
  try_except
    (call (CreateTable GLUE_DATABASE nba_players)
          (create_table aws GLUE_DATABASE nba_players) ;;
     print "Glue table 'nba_players' created successfully.")
    (fun error =>
       print ("Error creating Glue table: " ++ exn_msg error)%string).

Definition configure_athena_output : prog event unit :=
  try_except
    (call (StartQueryExecution "CREATE DATABASE IF NOT EXISTS nba_analytics"
             GLUE_DATABASE ATHENA_OUTPUT)
          (start_query_execution aws
             "CREATE DATABASE IF NOT EXISTS nba_analytics"
             GLUE_DATABASE ATHENA_OUTPUT) ;;
     print "Athena output location configured successfully.")
    (fun error =>
       print ("Error configuring Athena output: " ++ exn_msg error)%string).

Definition main : prog event unit :=
  print "Starting NBA data lake setup..." ;;
  initialize_s3_bucket ;;
  time_sleep 5 ;;
  setup_glue_database ;;
  nba_data <- retrieve_nba_data ;;
  (if py_truthy nba_data then
     jsonl_data <- format_as_jsonl nba_data ;;
     upload_to_s3 jsonl_data "raw-data/nba_player_data.jsonl"
   else ret tt) ;;
  define_glue_table ;;
  configure_athena_output ;;
  print "NBA data lake setup completed.".

End Program.

(** *** Vocabulary of the statements *)

Definition is_upload (e : event) : bool :=
  match e with
  | PutObject _ _ _ => true
  | _ => false
  end.

Definition is_serialization (e : event) : bool :=
  match e with
  | Stdout msg => String.eqb msg "Formatting data to line-delimited JSON."
  | _ => false
  end.

Definition is_submission (e : event) : bool :=
  match e with
  | StartQueryExecution _ _ _ => true
  | _ => false
  end.

(** the calls into the services, without the printed lines *)
Definition is_call (e : event) : bool :=
  match e with
  | Stdout _ => false
  | _ => true
  end.

Definition calls (t : list event) : list event := filter is_call t.

Definition uploads (t : list event) : list event := filter is_upload t.

(** The feed fails: the transport raises ([requests.get] itself), the
    answer has a 4xx or 5xx status (401 and 403 for a rejected key), or
    the body is not JSON. *)
Definition fetch_fails (aws : services) : Prop :=
  match requests_get aws (NBA_ENDPOINT aws) (API_KEY aws) with
  | Throws _ => True
  | Reply r =>
      (400 <= status_code r < 600)%nat
      \/ ((status_code r < 400 \/ 600 <= status_code r)%nat
          /\ exists e, body r = Throws e)
  end.

(** The feed delivers [v]. *)
Definition fetch_delivers (aws : services) (v : json) : Prop :=
  exists r, requests_get aws (NBA_ENDPOINT aws) (API_KEY aws) = Reply r
            /\ (status_code r < 400 \/ 600 <= status_code r)%nat
            /\ body r = Reply v.

End setup_nba_data_lake.

(* ================================================================= *)
(** ** Stand-ins for the services, used to run the programs *)

Module Fakes.

Import nba_visualization.

(** An engine whose status at the n-th request is [statuses n], for every
    handle; a submission answers with the handle [q-1]. *)
Definition engine (statuses : nat -> string) : services := {|
  start_query_execution := fun _ _ _ => Reply "q-1";
  get_query_execution := fun _ n => Reply (statuses n);
  read_csv := fun _ => Reply "Team,Points";
  plt_show := fun _ => Reply tt
|}.

(** [before] for the first [n] requests, [final] from then on *)
Definition then_ (before : string) (n : nat) (final : string) : nat -> string :=
  fun k => if Nat.ltb k n then before else final.

Definition cancelled_engine : services := engine (fun _ => "CANCELLED").

Definition failed_engine : services := engine (fun _ => "FAILED").

Definition succeeded_engine : services := engine (fun _ => "SUCCEEDED").

(** RUNNING at the first three requests, SUCCEEDED afterwards *)
Definition slow_engine : services := engine (then_ "RUNNING" 3 "SUCCEEDED").

(** QUEUED, RUNNING, then FAILED *)
Definition failing_engine : services :=
  engine (fun k => match k with 0 => "QUEUED" | 1 => "RUNNING" | _ => "FAILED" end).

(** never done *)
Definition running_engine : services := engine (fun _ => "RUNNING").

(** RUNNING once; at the second request the engine has forgotten the
    handle and the client raises *)
Definition purged_engine : services := {|
  start_query_execution := fun _ _ _ => Reply "q-1";
  get_query_execution := fun _ n =>
    if Nat.ltb n 1 then Reply "RUNNING"
    else Throws (Exn "InvalidRequestException"
                     "QueryExecution q-1 was not found");
  read_csv := fun _ => Reply "Team,Points";
  plt_show := fun _ => Reply tt
|}.

(** the query succeeds at the second request, the result cannot be read *)
Definition unreadable_engine : services := {|
  start_query_execution := fun _ _ _ => Reply "q-1";
  get_query_execution := fun _ n =>
    if Nat.ltb n 1 then Reply "QUEUED" else Reply "SUCCEEDED";
  read_csv := fun _ => Throws (Exn "FileNotFoundError" "No such file");
  plt_show := fun _ => Reply tt
|}.

End Fakes.

Module Setup_fakes.

Import Json setup_nba_data_lake.

(** Every AWS call succeeds; the feed answers [answer]. *)
Definition feed (answer : reply response) : services := {|
  getenv := fun name =>
    if String.eqb name "NBA_ENDPOINT" then Some "https://feed.example/players"
    else Some "key";
  create_bucket := fun _ _ => Reply tt;
  create_database := fun _ _ => Reply tt;
  requests_get := fun _ _ => answer;
  put_object := fun _ _ _ => Reply tt;
  create_table := fun _ _ => Reply tt;
  start_query_execution := fun _ _ _ => Reply "q-0"
|}.

Definition ok (v : json) : reply response :=
  Reply {| status_code := 200; reason := "OK";
           url := "https://feed.example/players"; body := Reply v |}.

(** the connection cannot be made *)
Definition unreachable_feed : services :=
  feed (Throws (Exn "ConnectionError" "Max retries exceeded")).

(** the key is rejected *)
Definition unauthorized_feed : services :=
  feed (Reply {| status_code := 401; reason := "Unauthorized";
                 url := "https://feed.example/players";
                 body := Reply JNull |}).

(** the feed has no players *)
Definition empty_feed : services := feed (ok (JArr [])).

(** the text with every apostrophe turned into a quotation mark *)
Fixpoint quoted (s : string) : string :=
  match s with
  | EmptyString => EmptyString
  | String c s' =>
      String (if Ascii.eqb c "'" then dquote else c) (quoted s')
  end.

Definition player (id : Z) (team : string) (points : Z) : json :=
  JObj [(of_ascii_text "PlayerID", JInt id);
        (of_ascii_text "Team", JStr (of_ascii_text team));
        (of_ascii_text "Points", JInt points)].

(** the feed of the example of the specification *)
Definition two_players : services :=
  feed (ok (JArr [player 1 "A" 10; player 2 "A" 5])).

(** the feed delivers the two players, every AWS call is refused *)
Definition refused_everywhere : services := {|
  getenv := fun _ => None;
  create_bucket := fun _ _ => Throws (Exn "ClientError" "AccessDenied");
  create_database := fun _ _ => Throws (Exn "ClientError" "AccessDenied");
  requests_get := fun _ _ => ok (JArr [player 1 "A" 10; player 2 "A" 5]);
  put_object := fun _ _ _ => Throws (Exn "ClientError" "NoSuchBucket");
  create_table := fun _ _ => Throws (Exn "ClientError" "AccessDenied");
  start_query_execution := fun _ _ _ =>
    Throws (Exn "ClientError" "AccessDenied")
|}.

(** the feed answers with the number 7 *)
Definition number_feed : services := feed (ok (JInt 7)).

(** the feed answers 200 with an object that reports a problem *)
Definition message_feed : services :=
  feed (ok (JObj [(of_ascii_text "statusCode", JInt 429);
                  (of_ascii_text "message",
                   JStr (of_ascii_text "Rate limit is exceeded"))])).

End Setup_fakes.

(* ================================================================= *)
(** ** Properties of [nba_visualization.py] *)

Module nba_visualization_facts.

Import nba_visualization.

Ltac run :=
  unfold print, time_sleep;
  unfold bind, ret, raise, call, emit, out_of_fuel;
  cbv beta iota.

Lemma polls_of_app id t1 t2 : polls_of id (t1 ++ t2) = polls_of id t1 + polls_of id t2.
Proof.
  unfold polls_of. rewrite filter_app, List.length_app. reflexivity.
Qed.

Lemma polls_of_round id : polls_of id (round id) = 1.
Proof.
  unfold polls_of, round. simpl. rewrite String.eqb_refl. reflexivity.
Qed.

Lemma polls_of_rounds n id : polls_of id (rounds n id) = n.
Proof.
  induction n as [|n IH]; [reflexivity|].
  cbn [rounds]. rewrite polls_of_app, polls_of_round, IH. reflexivity.
Qed.

Lemma polls_of_poll id : polls_of id [GetQueryExecution id] = 1.
Proof.
  unfold polls_of. simpl. rewrite String.eqb_refl. reflexivity.
Qed.

Lemma slept_app t1 t2 : slept (t1 ++ t2) = slept t1 + slept t2.
Proof.
  induction t1 as [|e t1 IH]; [reflexivity|].
  destruct e; simpl; rewrite ?IH; lia.
Qed.

Lemma slept_rounds n id : slept (rounds n id) = 2 * n.
Proof.
  induction n as [|n IH]; [reflexivity|].
  cbn [rounds]. rewrite slept_app, IH. simpl. lia.
Qed.

Lemma submissions_app t1 t2 :
  submissions (t1 ++ t2) = submissions t1 + submissions t2.
Proof.
  unfold submissions. rewrite filter_app, List.length_app. reflexivity.
Qed.

Lemma submissions_rounds n id : submissions (rounds n id) = 0.
Proof.
  induction n as [|n IH]; [reflexivity|].
  cbn [rounds]. rewrite submissions_app, IH. reflexivity.
Qed.

Lemma rounds_snoc n id : rounds n id ++ round id = rounds (S n) id.
Proof.
  induction n as [|n IH]; [reflexivity|].
  cbn [rounds] in *. rewrite <- List.app_assoc, IH. reflexivity.
Qed.

Lemma terminal_of_leaves s : leaves s = true -> terminal s = true.
Proof.
  unfold terminal, leaves, str_in. simpl.
  destruct (String.eqb s "SUCCEEDED"), (String.eqb s "FAILED"); simpl;
    intros H; try reflexivity; discriminate.
Qed.

Lemma leaves_of_not_terminal s : terminal s = false -> leaves s = false.
Proof.
  intros H. destruct (leaves s) eqn:E; [|reflexivity].
  apply terminal_of_leaves in E. congruence.
Qed.

Section Loop.
Variable c : services.

(** One round: a status that does not end the loop costs a request and a
    sleep of two seconds, and the loop goes on with one iteration less. *)
Lemma poll_until_done_step fuel id t s :
  get_query_execution c id (polls_of id t) = Reply s ->
  leaves s = false ->
  poll_until_done c (S fuel) id t = poll_until_done c fuel id (t ++ round id).
Proof.
  intros Hget Hs. unfold leaves in Hs. cbn [poll_until_done]. unfold poll. run.
  rewrite Hget, Hs. unfold round.
  replace ((t ++ [GetQueryExecution id]) ++ [Sleep 2])
    with (t ++ [GetQueryExecution id; Sleep 2])
    by (rewrite <- List.app_assoc; reflexivity).
  reflexivity.
Qed.

(** The loop leaves at the first status in the list of the test, after
    [n] rounds and one more request. *)
Lemma poll_until_done_leaves n : forall fuel id t s,
  (forall k, k < n -> exists s',
      get_query_execution c id (polls_of id t + k) = Reply s'
      /\ leaves s' = false) ->
  get_query_execution c id (polls_of id t + n) = Reply s ->
  leaves s = true ->
  n < fuel ->
  poll_until_done c fuel id t
  = (Returned s, t ++ rounds n id ++ [GetQueryExecution id]).
Proof.
  induction n as [|n IH]; intros fuel id t s Hwait Hget Hs Hfuel.
  - destruct fuel as [|fuel]; [lia|].
    rewrite Nat.add_0_r in Hget. unfold leaves in Hs.
    cbn [poll_until_done]. unfold poll. run. rewrite Hget, Hs. reflexivity.
  - destruct fuel as [|fuel]; [lia|].
    destruct (Hwait 0) as [s0 [H0 Hs0]]; [lia|].
    rewrite Nat.add_0_r in H0.
    rewrite (poll_until_done_step fuel id t s0 H0 Hs0).
    rewrite (IH fuel id (t ++ round id) s).
    + cbn [rounds]. rewrite <- !List.app_assoc. reflexivity.
    + intros k Hk. rewrite polls_of_app, polls_of_round.
      destruct (Hwait (S k)) as [s' [H1 H2]]; [lia|].
      exists s'. split; [|exact H2].
      rewrite <- H1. f_equal. lia.
    + rewrite polls_of_app, polls_of_round. rewrite <- Hget. f_equal. lia.
    + exact Hs.
    + lia.
Qed.

(** While no status of the list shows up the loop goes on. *)
Lemma poll_until_done_goes_on fuel : forall id t,
  (forall k, k < fuel -> exists s',
      get_query_execution c id (polls_of id t + k) = Reply s'
      /\ leaves s' = false) ->
  poll_until_done c fuel id t = (OutOfFuel, t ++ rounds fuel id).
Proof.
  induction fuel as [|fuel IH]; intros id t Hwait.
  - cbn. unfold out_of_fuel. rewrite List.app_nil_r. reflexivity.
  - destruct (Hwait 0) as [s0 [H0 Hs0]]; [lia|].
    rewrite Nat.add_0_r in H0.
    rewrite (poll_until_done_step fuel id t s0 H0 Hs0).
    rewrite IH.
    + cbn [rounds]. rewrite <- !List.app_assoc. reflexivity.
    + intros k Hk. rewrite polls_of_app, polls_of_round.
      destruct (Hwait (S k)) as [s' [H1 H2]]; [lia|].
      exists s'. split; [|exact H2].
      rewrite <- H1. f_equal. lia.
Qed.

(** The loop only requests the status and sleeps. *)
Lemma poll_until_done_trace fuel : forall id t,
  exists n, snd (poll_until_done c fuel id t) = t ++ rounds n id
            \/ snd (poll_until_done c fuel id t)
               = t ++ rounds n id ++ [GetQueryExecution id].
Proof.
  induction fuel as [|fuel IH]; intros id t.
  - exists 0. left. cbn. rewrite List.app_nil_r. reflexivity.
  - cbn [poll_until_done]. unfold poll. run.
    destruct (get_query_execution c id (polls_of id t)) as [s|e].
    + destruct (str_in s _).
      * exists 0. right. reflexivity.
      * destruct (IH id ((t ++ [GetQueryExecution id]) ++ [Sleep 2]))
          as [n [H|H]]; exists (S n); [left|right];
          rewrite H; cbn [rounds round]; rewrite <- !List.app_assoc; reflexivity.
    + exists 0. right. reflexivity.
Qed.

Lemma fetch_query_results_leaves n fuel id out t s :
  (forall k, k < n -> exists s',
      get_query_execution c id (polls_of id t + k) = Reply s'
      /\ leaves s' = false) ->
  get_query_execution c id (polls_of id t + n) = Reply s ->
  leaves s = true ->
  n < fuel ->
  fetch_query_results c fuel id out t
  = if String.eqb s "SUCCEEDED" then
      (Returned (out ++ id ++ ".csv")%string,
       t ++ rounds n id
         ++ [GetQueryExecution id; Stdout "Query succeeded!";
             Stdout ("Query results saved to: " ++ out ++ id ++ ".csv")%string])
    else
      (Raised (Exception "Query failed!"),
       t ++ rounds n id ++ [GetQueryExecution id]).
Proof.
  intros Hwait Hget Hs Hfuel.
  unfold fetch_query_results. unfold bind at 1.
  rewrite (poll_until_done_leaves n fuel id t s Hwait Hget Hs Hfuel).
  destruct (String.eqb s "SUCCEEDED"); run; [|reflexivity].
  rewrite <- !List.app_assoc. reflexivity.
Qed.

Lemma fetch_query_results_goes_on fuel id out t :
  (forall k, k < fuel -> exists s',
      get_query_execution c id (polls_of id t + k) = Reply s'
      /\ leaves s' = false) ->
  fetch_query_results c fuel id out t = (OutOfFuel, t ++ rounds fuel id).
Proof.
  intros Hwait. unfold fetch_query_results. unfold bind at 1.
  rewrite (poll_until_done_goes_on fuel id t Hwait). reflexivity.
Qed.

End Loop.

Ltac count_submissions :=
  rewrite ?submissions_app, ?submissions_rounds;
  unfold submissions in *; simpl in *; lia.

Section Run.
Variable c : services.

Lemma poll_until_done_submissions fuel id t :
  submissions (snd (poll_until_done c fuel id t)) = submissions t.
Proof.
  destruct (poll_until_done_trace c fuel id t) as [n [H|H]]; rewrite H;
    count_submissions.
Qed.

Lemma fetch_query_results_submissions fuel id out t :
  submissions (snd (fetch_query_results c fuel id out t)) = submissions t.
Proof.
  unfold fetch_query_results. unfold bind at 1.
  pose proof (poll_until_done_submissions fuel id t) as H.
  destruct (poll_until_done c fuel id t) as [[s|e|] t']; simpl in H;
    [|exact H|exact H].
  destruct (String.eqb s "SUCCEEDED"); run; simpl; [|exact H].
  count_submissions.
Qed.

Lemma visualize_data_submissions path t :
  submissions (snd (visualize_data c path t)) = submissions t.
Proof.
  unfold visualize_data. run.
  destruct (read_csv c path) as [data|e]; simpl.
  - destruct (plt_show c data); simpl; count_submissions.
  - count_submissions.
Qed.

Lemma main_submissions fuel : submissions (snd (main c fuel [])) <= 1.
Proof.
  unfold main, query_athena. unfold bind at 1 2 3. run. simpl.
  destruct (start_query_execution c sql_query database_name
              query_output_location) as [qid|e]; [|simpl; count_submissions].
  match goal with
  | |- context [fetch_query_results c fuel qid ?o ?t] =>
      pose proof (fetch_query_results_submissions fuel qid o t) as H;
      destruct (fetch_query_results c fuel qid o t) as [[path|e|] t']
  end; try (simpl in *; count_submissions).
  rewrite visualize_data_submissions. count_submissions.
Qed.

End Run.

(** *** Runs on stand-in engines *)

Example main_on_slow_engine :
  main Fakes.slow_engine 10 []
  = (Returned tt,
     [Stdout "Running Athena query...";
      StartQueryExecution sql_query "glue_nba_data_lake"
        "s3://players-nba/raw-data/";
      Stdout "Fetching query results...";
      GetQueryExecution "q-1"; Sleep 2;
      GetQueryExecution "q-1"; Sleep 2;
      GetQueryExecution "q-1"; Sleep 2;
      GetQueryExecution "q-1";
      Stdout "Query succeeded!";
      Stdout "Query results saved to: s3://players-nba/raw-data/q-1.csv";
      Stdout "Visualizing data...";
      ReadCsv "s3://players-nba/raw-data/q-1.csv";
      ShowBarplot "Team,Points"]).
Proof. reflexivity. Qed.

Example main_on_failing_engine :
  main Fakes.failing_engine 10 []
  = (Raised (Exception "Query failed!"),
     [Stdout "Running Athena query...";
      StartQueryExecution sql_query "glue_nba_data_lake"
        "s3://players-nba/raw-data/";
      Stdout "Fetching query results...";
      GetQueryExecution "q-1"; Sleep 2;
      GetQueryExecution "q-1"; Sleep 2;
      GetQueryExecution "q-1"]).
Proof. reflexivity. Qed.

Example main_on_cancelled_engine :
  main Fakes.cancelled_engine 3 []
  = (OutOfFuel,
     [Stdout "Running Athena query...";
      StartQueryExecution sql_query "glue_nba_data_lake"
        "s3://players-nba/raw-data/";
      Stdout "Fetching query results...";
      GetQueryExecution "q-1"; Sleep 2;
      GetQueryExecution "q-1"; Sleep 2;
      GetQueryExecution "q-1"; Sleep 2]).
Proof. reflexivity. Qed.

(** When the query fails [main] stops at the exception: the result file
    is not read and nothing is plotted. *)
Lemma main_stops_when_failed c n fuel qid :
  start_query_execution c sql_query database_name query_output_location
  = Reply qid ->
  (forall k, k < n -> exists s,
      get_query_execution c qid k = Reply s /\ leaves s = false) ->
  get_query_execution c qid n = Reply "FAILED" ->
  n < fuel ->
  fst (main c fuel []) = Raised (Exception "Query failed!")
  /\ existsb is_read (snd (main c fuel [])) = false.
Proof.
  intros Hstart Hwait Hget Hfuel.
  unfold main, query_athena. unfold bind at 1 2 3. run. simpl.
  rewrite Hstart.
  rewrite (fetch_query_results_leaves c n fuel qid _ _ "FAILED");
    try assumption; try reflexivity.
  simpl. split; [reflexivity|].
  rewrite existsb_app. simpl. rewrite orb_false_r.
  clear. induction n as [|n IH]; [reflexivity|]. simpl. exact IH.
Qed.

(** *** The claims *)

(** C1 (the code departs from it): the loop is to leave at the first
    status among SUCCEEDED, FAILED and CANCELLED.  The test of the loop
    lists SUCCEEDED and FAILED only, so for a cancelled query, whose
    status is CANCELLED at every request, [fetch_query_results] has not
    left after any number of iterations: it has requested the status
    that many times, slept two seconds after each, and neither returned
    nor raised. *)
Theorem C1_cancelled_query_is_polled_forever :
  terminal "CANCELLED" = true
  /\ leaves "CANCELLED" = false
  /\ forall fuel id out,
       fetch_query_results Fakes.cancelled_engine fuel id out []
       = (OutOfFuel, rounds fuel id).
Proof.
  split; [reflexivity|]. split; [reflexivity|].
  intros fuel id out.
  apply (fetch_query_results_goes_on Fakes.cancelled_engine fuel id out []).
  intros k _. exists "CANCELLED". split; reflexivity.
Qed.

(** C2, as stated: a run whose first terminal status is FAILED ends in a
    [QueryExecutionError].  It does not: the exception is a plain
    [Exception], the same for every handle. *)
Lemma C2_counterexample :
  ~ (exists e t',
       fetch_query_results Fakes.failed_engine 1 "q-1" "s3://out/" []
       = (Raised e, t')
       /\ exn_class e = "QueryExecutionError")
  /\ fst (fetch_query_results Fakes.failed_engine 1 "q-1" "s3://out/" [])
     = fst (fetch_query_results Fakes.failed_engine 1 "q-2" "s3://out/" []).
Proof.
  split; [|reflexivity].
  intros [e [t' [H Hclass]]]. vm_compute in H.
  injection H as He _. subst e. discriminate Hclass.
Qed.

(** C2, amended: when the statuses before are not terminal and the first
    terminal one is FAILED, [fetch_query_results] raises
    [Exception("Query failed!")], which names neither the status nor the
    handle; up to then it has only requested the status and slept: no
    result path is computed or printed, and nothing is read. *)
Theorem C2_failed_raises c id out t n fuel :
  (forall k, k < n -> exists s,
      get_query_execution c id (polls_of id t + k) = Reply s
      /\ terminal s = false) ->
  get_query_execution c id (polls_of id t + n) = Reply "FAILED" ->
  n < fuel ->
  fetch_query_results c fuel id out t
  = (Raised (Exception "Query failed!"),
     t ++ rounds n id ++ [GetQueryExecution id])
  /\ existsb is_read (rounds n id ++ [GetQueryExecution id]) = false.
Proof.
  intros Hwait Hget Hfuel. split.
  - rewrite (fetch_query_results_leaves c n fuel id out t "FAILED");
      try assumption; try reflexivity.
    intros k Hk. destruct (Hwait k Hk) as [s [H1 H2]].
    exists s. split; [exact H1|]. apply leaves_of_not_terminal, H2.
  - rewrite existsb_app. simpl. rewrite orb_false_r.
    clear. induction n as [|n IH]; [reflexivity|]. simpl. exact IH.
Qed.

(** C2 on an engine that answers QUEUED, RUNNING, FAILED. *)
Lemma C2_failed_raises_witness :
  fetch_query_results Fakes.failing_engine 5 "q-1" "s3://out/" []
  = (Raised (Exception "Query failed!"),
     [] ++ rounds 2 "q-1" ++ [GetQueryExecution "q-1"])
  /\ existsb is_read (rounds 2 "q-1" ++ [GetQueryExecution "q-1"]) = false.
Proof.
  apply (C2_failed_raises Fakes.failing_engine "q-1" "s3://out/" [] 2 5).
  - intros k Hk. destruct k as [|[|k]].
    + exists "QUEUED". split; reflexivity.
    + exists "RUNNING". split; reflexivity.
    + lia.
  - reflexivity.
  - lia.
Defined.

(** C3: when the engine answers RUNNING to the first [N] requests and
    SUCCEEDED to the next, [fetch_query_results] returns the path made of
    the output location, the handle and [.csv], after exactly [N + 1]
    status requests. *)
Theorem C3_running_then_succeeded c id out t N fuel :
  (forall k, k < N ->
      get_query_execution c id (polls_of id t + k) = Reply "RUNNING") ->
  get_query_execution c id (polls_of id t + N) = Reply "SUCCEEDED" ->
  N < fuel ->
  fst (fetch_query_results c fuel id out t)
  = Returned (out ++ id ++ ".csv")%string
  /\ polls_of id (snd (fetch_query_results c fuel id out t))
     = polls_of id t + (N + 1).
Proof.
  intros Hwait Hget Hfuel.
  rewrite (fetch_query_results_leaves c N fuel id out t "SUCCEEDED");
    try assumption; try reflexivity.
  - simpl. split; [reflexivity|].
    rewrite !polls_of_app, polls_of_rounds.
    unfold polls_of. simpl. rewrite String.eqb_refl. simpl. lia.
  - intros k Hk. exists "RUNNING". split; [apply Hwait, Hk|reflexivity].
Qed.

(** C3 with three RUNNING answers. *)
Lemma C3_running_then_succeeded_witness :
  fst (fetch_query_results Fakes.slow_engine 4 "q-1" "s3://out/" [])
  = Returned "s3://out/q-1.csv"
  /\ polls_of "q-1"
       (snd (fetch_query_results Fakes.slow_engine 4 "q-1" "s3://out/" []))
     = 0 + (3 + 1).
Proof.
  apply (C3_running_then_succeeded Fakes.slow_engine "q-1" "s3://out/" [] 3 4).
  - intros k Hk. destruct k as [|[|[|k]]]; try reflexivity. lia.
  - reflexivity.
  - lia.
Defined.

(** C4: whatever [fetch_query_results] returns is the output location
    followed by the handle and [.csv]; and on a handle that has already
    succeeded it returns, and returns that same path again when it is
    called a second time. *)
Theorem C4_result_path_is_determined :
  (forall c fuel id out t path t',
      fetch_query_results c fuel id out t = (Returned path, t') ->
      path = (out ++ id ++ ".csv")%string)
  /\ (forall c fuel id out t,
        (forall k, get_query_execution c id (polls_of id t + k)
                   = Reply "SUCCEEDED") ->
        0 < fuel ->
        exists t1 t2,
          fetch_query_results c fuel id out t
          = (Returned (out ++ id ++ ".csv")%string, t1)
          /\ fetch_query_results c fuel id out t1
             = (Returned (out ++ id ++ ".csv")%string, t2)).
Proof.
  split.
  - intros c fuel id out t path t'.
    unfold fetch_query_results. unfold bind at 1.
    destruct (poll_until_done c fuel id t) as [[s|e|] t1];
      [|discriminate|discriminate].
    destruct (String.eqb s "SUCCEEDED"); run; intros H;
      [|discriminate].
    injection H as H _. symmetry. exact H.
  - intros c fuel id out t Hdone Hfuel.
    pose proof (fetch_query_results_leaves c 0 fuel id out t "SUCCEEDED")
      as H1.
    simpl in H1. do 2 eexists. split.
    + apply H1; [intros k Hk; lia|apply Hdone|reflexivity|exact Hfuel].
    + rewrite (fetch_query_results_leaves c 0 fuel id out _ "SUCCEEDED").
      * simpl. reflexivity.
      * intros k Hk; lia.
      * rewrite !polls_of_app, <- Nat.add_assoc. apply Hdone.
      * reflexivity.
      * exact Hfuel.
Qed.

(** C4 on an engine that answers SUCCEEDED. *)
Lemma C4_result_path_is_determined_witness :
  exists t1 t2,
    fetch_query_results Fakes.succeeded_engine 1 "q-1" "s3://out/" []
    = (Returned "s3://out/q-1.csv", t1)
    /\ fetch_query_results Fakes.succeeded_engine 1 "q-1" "s3://out/" t1
       = (Returned "s3://out/q-1.csv", t2).
Proof.
  apply (proj2 C4_result_path_is_determined
           Fakes.succeeded_engine 1 "q-1" "s3://out/" []).
  - intros k. reflexivity.
  - lia.
Defined.

(** C5, as stated: when the query takes longer than the caller's budget
    the wait ends in a [QueryTimeoutError].  There is no budget to give:
    on an engine that is RUNNING for three requests the call sleeps six
    seconds and returns the path; on one that stays RUNNING it is still
    in its loop after a thousand iterations. *)
Lemma C5_counterexample :
  ~ (exists e t',
       fetch_query_results Fakes.slow_engine 4 "q-1" "s3://out/" []
       = (Raised e, t')
       /\ exn_class e = "QueryTimeoutError")
  /\ fst (fetch_query_results Fakes.slow_engine 4 "q-1" "s3://out/" [])
     = Returned "s3://out/q-1.csv"
  /\ fst (fetch_query_results Fakes.running_engine 1000 "q-1" "s3://out/" [])
     = OutOfFuel.
Proof.
  split; [|split].
  - intros [e [t' [H _]]]. vm_compute in H. discriminate H.
  - reflexivity.
  - vm_compute. reflexivity.
Qed.

(** C5, amended: [fetch_query_results] takes no timeout and raises no
    [QueryTimeoutError].  As long as the engine answers with statuses
    other than SUCCEEDED and FAILED it goes on: after any number of
    iterations it has requested the status that many times, slept two
    seconds after each request, and neither returned nor raised. *)
Theorem C5_no_timeout c id out t fuel :
  (forall k, k < fuel -> exists s,
      get_query_execution c id (polls_of id t + k) = Reply s
      /\ leaves s = false) ->
  fetch_query_results c fuel id out t = (OutOfFuel, t ++ rounds fuel id)
  /\ polls_of id (t ++ rounds fuel id) = polls_of id t + fuel
  /\ slept (t ++ rounds fuel id) = slept t + 2 * fuel.
Proof.
  intros Hwait. split; [|split].
  - apply fetch_query_results_goes_on, Hwait.
  - rewrite polls_of_app, polls_of_rounds. reflexivity.
  - rewrite slept_app, slept_rounds. reflexivity.
Qed.

(** C5 over the three RUNNING answers of the slow engine. *)
Lemma C5_no_timeout_witness :
  fetch_query_results Fakes.slow_engine 3 "q-1" "s3://out/" []
  = (OutOfFuel, [] ++ rounds 3 "q-1")
  /\ polls_of "q-1" ([] ++ rounds 3 "q-1") = polls_of "q-1" [] + 3
  /\ slept ([] ++ rounds 3 "q-1") = slept [] + 2 * 3.
Proof.
  apply (C5_no_timeout Fakes.slow_engine "q-1" "s3://out/" [] 3).
  intros k Hk. exists "RUNNING".
  destruct k as [|[|[|k]]]; try (split; reflexivity). lia.
Defined.

(** C6, as stated: a request whose SQL text is empty is rejected with
    [InvalidQueryError] and never submitted.  It is submitted: on an
    engine that accepts it, [query_athena] returns the handle. *)
Lemma C6_counterexample :
  ~ (exists e t',
       query_athena (Fakes.engine (fun _ => "RUNNING"))
         "glue_nba_data_lake" EmptyString "s3://out/" []
       = (Raised e, t')
       /\ exn_class e = "InvalidQueryError"
       /\ submissions t' = 0)
  /\ query_athena (Fakes.engine (fun _ => "RUNNING"))
       "glue_nba_data_lake" EmptyString "s3://out/" []
     = (Returned "q-1",
        [StartQueryExecution EmptyString "glue_nba_data_lake" "s3://out/"]).
Proof.
  split; [|reflexivity].
  intros [e [t' [H _]]]. vm_compute in H. discriminate H.
Qed.

(** C6, amended: [query_athena] does not look at the SQL text.  Whatever
    the text, the empty one included, it calls [start_query_execution]
    once with it, and returns the handle of the response or lets the
    exception of the client through. *)
Theorem C6_query_is_submitted_as_it_is c database query out t :
  query_athena c database query out t
  = (match start_query_execution c query database out with
     | Reply id => Returned id
     | Throws e => Raised e
     end,
     t ++ [StartQueryExecution query database out])
  /\ submissions (snd (query_athena c database query out t))
     = submissions t + 1.
Proof.
  split; [reflexivity|].
  unfold query_athena, call. simpl. count_submissions.
Qed.

(** C8: a run of [main] submits at most one query, and the loop of
    [fetch_query_results] submits none, however it ends: it only
    requests the status and sleeps. *)
Theorem C8_only_the_read_is_repeated c fuel :
  submissions (snd (main c fuel [])) <= 1
  /\ (forall id t,
        submissions (snd (poll_until_done c fuel id t)) = submissions t)
  /\ (forall id t, exists n,
        snd (poll_until_done c fuel id t) = t ++ rounds n id
        \/ snd (poll_until_done c fuel id t)
           = t ++ rounds n id ++ [GetQueryExecution id]).
Proof.
  split; [apply main_submissions|].
  split; [apply poll_until_done_submissions|].
  apply poll_until_done_trace.
Qed.

End nba_visualization_facts.

(* ================================================================= *)
(** ** Properties of [json.dumps] *)

Module Json_facts.

Import Json.

(** Induction over a value, its items and its members. *)
Lemma json_ind (P : json -> Prop) :
  P JNull ->
  (forall b, P (JBool b)) ->
  (forall z, P (JInt z)) ->
  (forall s, P (JStr s)) ->
  (forall items, Forall P items -> P (JArr items)) ->
  (forall members, Forall (fun kv => P (snd kv)) members -> P (JObj members)) ->
  forall v, P v.
Proof.
  intros Hnull Hbool Hint Hstr Harr Hobj.
  fix self 1. intros [ | b | z | s | items | members].
  - exact Hnull.
  - apply Hbool.
  - apply Hint.
  - apply Hstr.
  - apply Harr. induction items as [|x items IH]; constructor.
    + apply self.
    + exact IH.
  - apply Hobj. induction members as [|[k x] members IH]; constructor.
    + apply self.
    + exact IH.
Qed.

(** *** Strings *)

Lemma append_nil_r s : (s ++ EmptyString)%string = s.
Proof. induction s as [|c s IH]; simpl; [reflexivity|now rewrite IH]. Qed.

Lemma append_assoc a b c : ((a ++ b) ++ c)%string = (a ++ (b ++ c))%string.
Proof. induction a as [|x a IH]; simpl; [reflexivity|now rewrite IH]. Qed.

Lemma all_chars_app p a b :
  all_chars p (a ++ b) = all_chars p a && all_chars p b.
Proof.
  induction a as [|c a IH]; simpl; [reflexivity|].
  rewrite IH, andb_assoc. reflexivity.
Qed.

Lemma all_chars_weaken (p q : ascii -> bool) s :
  (forall c, p c = true -> q c = true) ->
  all_chars p s = true -> all_chars q s = true.
Proof.
  intros Hpq. induction s as [|c s IH]; simpl; [reflexivity|].
  intros H. apply andb_true_iff in H as [H1 H2].
  rewrite (Hpq c H1), (IH H2). reflexivity.
Qed.

Lemma concat_cons sep x y l :
  String.concat sep (x :: y :: l)
  = (x ++ sep ++ String.concat sep (y :: l))%string.
Proof. reflexivity. Qed.

Lemma concat_empty_cons x l :
  String.concat EmptyString (x :: l)
  = (x ++ String.concat EmptyString l)%string.
Proof.
  destruct l as [|y l]; simpl; [now rewrite append_nil_r|reflexivity].
Qed.

Lemma all_chars_concat p sep l :
  all_chars p sep = true ->
  Forall (fun s => all_chars p s = true) l ->
  all_chars p (String.concat sep l) = true.
Proof.
  intros Hsep H. induction H as [|x l Hx Hl IH]; [reflexivity|].
  destruct l as [|y l]; [exact Hx|].
  rewrite concat_cons, !all_chars_app, Hx, Hsep, IH. reflexivity.
Qed.

(** *** The characters [json.dumps] writes *)

Lemma printable_not_newline c : printable c = true -> Ascii.eqb c newline = false.
Proof.
  intros H. destruct (Ascii.eqb_spec c newline) as [->|]; [|reflexivity].
  discriminate H.
Qed.

Lemma code_ascii_of_N n : (n < 256)%N -> code (ascii_of_N n) = N.to_nat n.
Proof.
  intros H. unfold code, nat_of_ascii. rewrite N_ascii_embedding by exact H.
  reflexivity.
Qed.

Lemma hex_digit_spec n :
  (n < 16)%N ->
  is_hexdig (hex_digit n) = true /\ printable (hex_digit n) = true.
Proof.
  intros H. unfold hex_digit.
  assert (Hn : N.to_nat n < 16) by lia.
  revert Hn. generalize (N.to_nat n) as k. intros k Hk.
  do 16 (destruct k as [|k]; [split; reflexivity|]). lia.
Qed.

Lemma land_15 n : (N.land n 15 < 16)%N.
Proof.
  change 15%N with (N.ones 4). rewrite N.land_ones.
  apply N.mod_lt. discriminate.
Qed.

Lemma hex4_spec n :
  exists a b c d,
    hex4 n = String a (String b (String c (String d EmptyString)))
    /\ is_hexdig a = true /\ is_hexdig b = true
    /\ is_hexdig c = true /\ is_hexdig d = true
    /\ printable a = true /\ printable b = true
    /\ printable c = true /\ printable d = true.
Proof.
  unfold hex4. do 4 eexists. split; [reflexivity|].
  repeat split; apply hex_digit_spec, land_15.
Qed.

(** What one character becomes can stand in front of the characters of a
    JSON string, and is printable. *)
Lemma escape_char_spec c rest :
  json_chars rest -> json_chars (escape_char c ++ rest).
Proof.
  intros Hrest. unfold escape_char.
  repeat match goal with
  | |- context [if N.eqb c ?k then _ else _] =>
      destruct (N.eqb_spec c k);
      [simpl; apply chars_escape; [simpl; tauto|exact Hrest]|]
  end.
  destruct (N.leb 32 c && N.leb c 126) eqn:Hrange.
  - apply andb_true_iff in Hrange as [H1 H2].
    apply N.leb_le in H1, H2.
    simpl. apply chars_unescaped; [|exact Hrest].
    unfold is_unescaped. rewrite code_ascii_of_N by lia.
    repeat (apply andb_true_iff; split).
    + apply Nat.leb_le. lia.
    + apply Nat.leb_le. lia.
    + apply negb_true_iff, Nat.eqb_neq. lia.
    + apply negb_true_iff, Nat.eqb_neq. lia.
  - assert (Hu : forall n r, json_chars r -> json_chars (u_escape n ++ r)).
    { intros k r Hr. unfold u_escape.
      destruct (hex4_spec k) as (a & b & x & d & -> & Ha & Hb & Hx & Hd & _).
      simpl. apply chars_u; assumption. }
    destruct (N.ltb c 65536).
    + apply Hu, Hrest.
    + rewrite append_assoc. apply Hu, Hu, Hrest.
Qed.

Lemma escape_char_printable c : all_chars printable (escape_char c) = true.
Proof.
  unfold escape_char.
  repeat match goal with
  | |- context [if N.eqb c ?k then _ else _] =>
      destruct (N.eqb_spec c k); [reflexivity|]
  end.
  destruct (N.leb 32 c && N.leb c 126) eqn:Hrange.
  - apply andb_true_iff in Hrange as [H1 H2].
    apply N.leb_le in H1, H2.
    simpl. rewrite andb_true_r. unfold printable.
    rewrite code_ascii_of_N by lia.
    apply andb_true_iff; split; apply Nat.leb_le; lia.
  - assert (Hu : forall k, all_chars printable (u_escape k) = true).
    { intros k. unfold u_escape.
      destruct (hex4_spec k)
        as (a & b & x & d & -> & _ & _ & _ & _ & Ha & Hb & Hx & Hd).
      simpl. rewrite Ha, Hb, Hx, Hd. reflexivity. }
    destruct (N.ltb c 65536).
    + apply Hu.
    + rewrite all_chars_app, !Hu. reflexivity.
Qed.

Lemma encode_basestring_ascii_string s : json_string (encode_basestring_ascii s).
Proof.
  unfold encode_basestring_ascii, json_string. eexists. split; [reflexivity|].
  induction s as [|c s IH]; [constructor|].
  cbn [map]. rewrite concat_empty_cons. apply escape_char_spec, IH.
Qed.

Lemma encode_basestring_ascii_printable s :
  all_chars printable (encode_basestring_ascii s) = true.
Proof.
  unfold encode_basestring_ascii.
  rewrite !all_chars_app. simpl. rewrite andb_true_r.
  apply all_chars_concat; [reflexivity|].
  apply Forall_forall. intros x Hx. apply in_map_iff in Hx as [c [<- _]].
  apply escape_char_printable.
Qed.

(** *** Integers *)

Lemma string_of_uint_digits d :
  all_chars is_digit (NilEmpty.string_of_uint d) = true.
Proof. induction d; simpl; auto. Qed.

Lemma nzhead_not_D0 u v : Decimal.nzhead u <> Decimal.D0 v.
Proof. induction u; simpl; try discriminate. exact IHu. Qed.

Lemma unorm_fixed_int d :
  Decimal.unorm d = d -> json_int (NilZero.string_of_uint d).
Proof.
  intros H. destruct d; simpl;
    try (right; split; [reflexivity|apply string_of_uint_digits]).
  - discriminate H.
  - left. split; [reflexivity|].
    rewrite unorm_D0 in H. unfold Decimal.unorm in H.
    destruct (Decimal.nzhead d) eqn:E; try discriminate H.
    + injection H as <-. reflexivity.
    + exfalso. apply (nzhead_not_D0 d d). rewrite E. exact H.
Qed.

Lemma to_uint_fixed p : Decimal.unorm (Pos.to_uint p) = Pos.to_uint p.
Proof.
  rewrite <- DecimalPos.Unsigned.to_of, DecimalPos.Unsigned.of_to.
  reflexivity.
Qed.

Lemma json_int_printable s : json_int s -> all_chars printable s = true.
Proof.
  destruct s as [|c rest]; simpl; [tauto|].
  intros [[-> ->]|[H1 H2]]; [reflexivity|].
  apply andb_true_iff. split.
  - unfold is_digit1_9 in H1. unfold printable.
    apply andb_true_iff in H1 as [Ha Hb].
    apply Nat.leb_le in Ha, Hb.
    apply andb_true_iff; split; apply Nat.leb_le; lia.
  - apply (all_chars_weaken is_digit); [|exact H2].
    intros x Hx. unfold is_digit in Hx. unfold printable.
    apply andb_true_iff in Hx as [Ha Hb].
    apply Nat.leb_le in Ha, Hb.
    apply andb_true_iff; split; apply Nat.leb_le; lia.
Qed.

Lemma str_of_int_cases z :
  exists sign digits,
    str_of_int z = (sign ++ digits)%string
    /\ (sign = EmptyString \/ sign = "-")
    /\ json_int digits.
Proof.
  unfold str_of_int. destruct z as [|p|p]; simpl.
  - exists EmptyString, "0". repeat split; auto. left. split; reflexivity.
  - exists EmptyString, (NilZero.string_of_uint (Pos.to_uint p)).
    repeat split; auto. apply unorm_fixed_int, to_uint_fixed.
  - exists "-", (NilZero.string_of_uint (Pos.to_uint p)).
    repeat split; auto. apply unorm_fixed_int, to_uint_fixed.
Qed.

Lemma str_of_int_number z : json_number (str_of_int z).
Proof.
  destruct (str_of_int_cases z) as (sign & digits & -> & Hsign & Hint).
  exists sign, digits, EmptyString, EmptyString.
  rewrite !append_nil_r. repeat split; auto.
Qed.

Lemma str_of_int_printable z : all_chars printable (str_of_int z) = true.
Proof.
  destruct (str_of_int_cases z) as (sign & digits & -> & Hsign & Hint).
  rewrite all_chars_app, (json_int_printable digits Hint).
  destruct Hsign as [->| ->]; reflexivity.
Qed.

(** *** Values *)

Lemma elements_after_space s : json_elements s -> json_elements (String " " s).
Proof.
  intros H. destruct H as [w1 v w2 H1 Hv H2 | w1 v w2 rest H1 Hv H2 Hrest].
  - apply (elements_one (String " " w1) v w2); assumption.
  - apply (elements_more (String " " w1) v w2 rest); assumption.
Qed.

Lemma members_after_space s : json_members s -> json_members (String " " s).
Proof.
  intros H.
  destruct H as [w1 k w2 w3 v w4 H1 Hk H2 H3 Hv H4
                |w1 k w2 w3 v w4 rest H1 Hk H2 H3 Hv H4 Hrest].
  - apply (members_one (String " " w1) k w2 w3 v w4); assumption.
  - apply (members_more (String " " w1) k w2 w3 v w4 rest); assumption.
Qed.

Lemma elements_of_values l :
  l <> [] -> Forall json_value l -> json_elements (String.concat ", " l).
Proof.
  intros Hne H. induction H as [|x l Hx Hl IH]; [congruence|].
  destruct l as [|y l].
  - pose proof (elements_one EmptyString x EmptyString eq_refl Hx eq_refl) as E.
    simpl in E. rewrite append_nil_r in E. exact E.
  - rewrite concat_cons.
    pose proof (elements_more EmptyString x EmptyString
                  (String " " (String.concat ", " (y :: l)))
                  eq_refl Hx eq_refl) as E.
    apply E. apply elements_after_space, IH. discriminate.
Qed.

Lemma member_of_pair k v :
  json_string k -> json_value v -> json_members (k ++ ": " ++ v)%string.
Proof.
  intros Hk Hv.
  pose proof (members_one EmptyString k EmptyString " " v EmptyString
                eq_refl Hk eq_refl eq_refl Hv eq_refl) as E.
  simpl in E. rewrite append_nil_r in E. exact E.
Qed.

Lemma members_of_pairs (l : list (string * string)) :
  l <> [] ->
  Forall (fun kv => json_string (fst kv) /\ json_value (snd kv)) l ->
  json_members
    (String.concat ", " (map (fun kv => (fst kv ++ ": " ++ snd kv)%string) l)).
Proof.
  intros Hne H. induction H as [|[k v] l [Hk Hv] Hl IH]; [congruence|].
  destruct l as [|y l].
  - apply member_of_pair; assumption.
  - cbn [map]. rewrite concat_cons. cbn [fst snd] in *.
    remember (String.concat ", "
                (map (fun kv => (fst kv ++ ": " ++ snd kv)%string) (y :: l)))
      as tail eqn:Etail.
    assert (Htail : json_members (String " " tail)).
    { apply members_after_space, IH. discriminate. }
    pose proof (members_more EmptyString k EmptyString " " v EmptyString
                  (String " " tail)
                  eq_refl Hk eq_refl eq_refl Hv eq_refl Htail) as E.
    cbn [append] in E. rewrite append_assoc. cbn [append].
    subst tail. exact E.
Qed.

Lemma dumps_members members :
  map (fun kv : pystr * json =>
         let (k, x) := kv in
         (encode_basestring_ascii k ++ ": " ++ dumps x)%string) members
  = map (fun kv => (fst kv ++ ": " ++ snd kv)%string)
        (map (fun kv => (encode_basestring_ascii (fst kv), dumps (snd kv)))
             members).
Proof.
  rewrite map_map. apply map_ext. intros [k x]. reflexivity.
Qed.

(** What [json.dumps] writes is a JSON value. *)
Lemma dumps_value v : json_value (dumps v).
Proof.
  induction v as [ | b | z | s | items IH | members IH] using json_ind.
  - constructor.
  - destruct b; constructor.
  - apply value_number, str_of_int_number.
  - apply value_string, encode_basestring_ascii_string.
  - cbn [dumps]. destruct items as [|x items].
    + apply (value_array_empty EmptyString). reflexivity.
    + apply value_array, elements_of_values; [discriminate|].
      apply Forall_forall. intros s Hs.
      apply in_map_iff in Hs as [y [<- Hy]].
      rewrite Forall_forall in IH. apply IH, Hy.
  - cbn [dumps]. destruct members as [|m members].
    + apply (value_object_empty EmptyString). reflexivity.
    + apply value_object. rewrite dumps_members.
      apply members_of_pairs; [discriminate|].
      apply Forall_forall. intros [k s] Hs.
      apply in_map_iff in Hs as [[k' y] [E Hy]].
      injection E as <- <-. cbn [fst snd]. split.
      * apply encode_basestring_ascii_string.
      * rewrite Forall_forall in IH. apply (IH (k', y)), Hy.
Qed.


(** [json.dumps] writes printable ASCII only. *)
Lemma dumps_printable v : all_chars printable (dumps v) = true.
Proof.
  induction v as [ | b | z | s | items IH | members IH] using json_ind.
  - reflexivity.
  - destruct b; reflexivity.
  - apply str_of_int_printable.
  - apply encode_basestring_ascii_printable.
  - cbn [dumps]. rewrite !all_chars_app.
    rewrite all_chars_concat; [reflexivity|reflexivity|].
    apply Forall_forall. intros s Hs.
    apply in_map_iff in Hs as [y [<- Hy]].
    rewrite Forall_forall in IH. apply IH, Hy.
  - cbn [dumps]. rewrite !all_chars_app.
    rewrite all_chars_concat; [reflexivity|reflexivity|].
    apply Forall_forall. intros s Hs.
    apply in_map_iff in Hs as [[k y] [<- Hy]].
    rewrite !all_chars_app, encode_basestring_ascii_printable.
    rewrite Forall_forall in IH. pose proof (IH (k, y) Hy) as Hx.
    cbn [snd] in Hx. rewrite Hx. reflexivity.
Qed.

Lemma dumps_not_empty v : dumps v <> EmptyString.
Proof.
  pose proof (dumps_value v) as H. intros E. rewrite E in H.
  inversion H as [ | | | s Hn | s Hs | | | | ]; subst.
  - destruct Hn as (sign & i & frac & e & Heq & _ & Hi & _).
    destruct sign; [|discriminate Heq].
    destruct i; [exact Hi|discriminate Heq].
  - destruct Hs as (body & Heq & _). discriminate Heq.
Qed.

(** The grammar does not take everything. *)
Example truncated_literal_is_no_value : ~ json_value "nul".
Proof.
  intros H. inversion H as [ | | | s Hn | s Hs | | | | ]; subst.
  - destruct Hn as (sign & i & frac & e & Heq & Hsign & Hi & _).
    destruct Hsign as [-> | ->]; [|discriminate Heq].
    destruct i as [|c i]; [exact Hi|].
    injection Heq as <- _.
    destruct Hi as [[E _]|[E _]]; discriminate E.
  - destruct Hs as (body & Heq & _). discriminate Heq.
Qed.

Example open_object_is_no_value : ~ json_value "{".
Proof.
  intros H. inversion H as [ | | | s Hn | s Hs | | | w Hw E | m Hm E ]; subst.
  - destruct Hn as (sign & i & frac & e & Heq & Hsign & Hi & _).
    destruct Hsign as [-> | ->]; [|discriminate Heq].
    destruct i as [|c i]; [exact Hi|].
    injection Heq as <- _.
    destruct Hi as [[E _]|[E _]]; discriminate E.
  - destruct Hs as (body & Heq & _). discriminate Heq.
  - destruct w; discriminate E.
  - destruct m; discriminate E.
Qed.

(** *** Lines *)

Lemma printable_no_newline s :
  all_chars printable s = true -> all_chars no_newline s = true.
Proof.
  apply all_chars_weaken. intros c H. unfold no_newline.
  rewrite (printable_not_newline c H). reflexivity.
Qed.

Lemma split_on_plain s :
  all_chars no_newline s = true -> split_on newline s = [s].
Proof.
  induction s as [|c s IH]; simpl; [reflexivity|].
  intros H. apply andb_true_iff in H as [Hc Hs].
  unfold no_newline in Hc. apply negb_true_iff in Hc. rewrite Hc.
  rewrite (IH Hs). reflexivity.
Qed.

Lemma split_on_app a b :
  all_chars no_newline a = true ->
  split_on newline (a ++ String newline b) = a :: split_on newline b.
Proof.
  induction a as [|c a IH]; simpl.
  - intros _. reflexivity.
  - intros H. apply andb_true_iff in H as [Hc Ha].
    unfold no_newline in Hc. apply negb_true_iff in Hc. rewrite Hc.
    rewrite (IH Ha). reflexivity.
Qed.

Lemma split_on_concat l :
  l <> [] ->
  Forall (fun s => all_chars no_newline s = true) l ->
  split_on newline (String.concat (str1 newline) l) = l.
Proof.
  intros Hne H. induction H as [|x l Hx Hl IH]; [congruence|].
  destruct l as [|y l].
  - apply split_on_plain, Hx.
  - rewrite concat_cons. unfold str1 at 1. cbn [append].
    rewrite (split_on_app _ _ Hx), IH; [reflexivity|discriminate].
Qed.

Lemma concat_not_empty sep x l :
  x <> EmptyString -> String.concat sep (x :: l) <> EmptyString.
Proof.
  intros Hx. destruct l as [|y l]; [exact Hx|].
  rewrite concat_cons. destruct x; [congruence|discriminate].
Qed.

Lemma lines_of_concat l :
  Forall (fun s => all_chars no_newline s = true /\ s <> EmptyString) l ->
  lines_of (String.concat (str1 newline) l) = l.
Proof.
  intros H. destruct l as [|x l]; [reflexivity|].
  assert (Hne : String.concat (str1 newline) (x :: l) <> EmptyString).
  { apply concat_not_empty. inversion H as [|? ? [_ Hx] _]. exact Hx. }
  unfold lines_of.
  destruct (String.concat (str1 newline) (x :: l)) eqn:E; [congruence|].
  rewrite <- E. apply split_on_concat; [discriminate|].
  eapply Forall_impl; [|exact H]. intros z [Hz _]. exact Hz.
Qed.




Lemma dumps_lines records :
  Forall (fun s => all_chars no_newline s = true /\ s <> EmptyString)
         (map dumps records).
Proof.
  apply Forall_forall. intros s Hs. apply in_map_iff in Hs as [v [<- _]].
  split; [apply printable_no_newline, dumps_printable|apply dumps_not_empty].
Qed.

End Json_facts.

(* ================================================================= *)
(** ** Properties of [setup_nba_data_lake.py] *)

Module setup_nba_data_lake_facts.

Import Json Json_facts setup_nba_data_lake.

Ltac run :=
  unfold print, time_sleep;
  unfold try_except, bind, ret, raise, call, emit, out_of_fuel;
  cbv beta iota.

Lemma bind_returned {A B : Type} (m : prog event A) (k : A -> prog event B)
    t a t' :
  m t = (Returned a, t') -> bind m k t = k a t'.
Proof. intros H. unfold bind. rewrite H. reflexivity. Qed.

Section Steps.
Variable aws : services.

(** Each of the four provisioning steps makes its one call, prints one
    line about how it went, and returns; an exception of the call ends up
    in the line. *)
Lemma initialize_s3_bucket_run t :
  initialize_s3_bucket aws t
  = (Returned tt,
     t ++ [CreateBucket BUCKET_NAME (Some REGION);
           Stdout (match create_bucket aws BUCKET_NAME (Some REGION) with
                   | Reply _ =>
                       "S3 bucket '" ++ BUCKET_NAME
                       ++ "' created successfully."
                   | Throws error =>
                       "Failed to create S3 bucket: " ++ exn_msg error
                   end)%string]).
Proof.
  unfold initialize_s3_bucket.
  change (String.eqb REGION "us-east-1") with false. run.
  destruct (create_bucket aws BUCKET_NAME (Some REGION));
    rewrite <- List.app_assoc; reflexivity.
Qed.

Lemma setup_glue_database_run t :
  setup_glue_database aws t
  = (Returned tt,
     t ++ [CreateDatabase GLUE_DATABASE
             "Database for NBA sports analytics data.";
           Stdout (match create_database aws GLUE_DATABASE
                           "Database for NBA sports analytics data." with
                   | Reply _ =>
                       "Glue database '" ++ GLUE_DATABASE
                       ++ "' created successfully."
                   | Throws error =>
                       "Error creating Glue database: " ++ exn_msg error
                   end)%string]).
Proof.
  unfold setup_glue_database. run.
  destruct (create_database aws GLUE_DATABASE _);
    rewrite <- List.app_assoc; reflexivity.
Qed.

Lemma define_glue_table_run t :
  define_glue_table aws t
  = (Returned tt,
     t ++ [CreateTable GLUE_DATABASE nba_players;
           Stdout (match create_table aws GLUE_DATABASE nba_players with
                   | Reply _ => "Glue table 'nba_players' created successfully."
                   | Throws error =>
                       "Error creating Glue table: " ++ exn_msg error
                   end)%string]).
Proof.
  unfold define_glue_table. run.
  destruct (create_table aws GLUE_DATABASE nba_players);
    rewrite <- List.app_assoc; reflexivity.
Qed.

Lemma configure_athena_output_run t :
  configure_athena_output aws t
  = (Returned tt,
     t ++ [StartQueryExecution "CREATE DATABASE IF NOT EXISTS nba_analytics"
             GLUE_DATABASE ATHENA_OUTPUT;
           Stdout (match start_query_execution aws
                           "CREATE DATABASE IF NOT EXISTS nba_analytics"
                           GLUE_DATABASE ATHENA_OUTPUT with
                   | Reply _ =>
                       "Athena output location configured successfully."
                   | Throws error =>
                       "Error configuring Athena output: " ++ exn_msg error
                   end)%string]).
Proof.
  unfold configure_athena_output. run.
  destruct (start_query_execution aws _ _ _);
    rewrite <- List.app_assoc; reflexivity.
Qed.

(** [retrieve_nba_data] always returns; what it returns and what it adds
    to the trace (the request and one or two printed lines) do not depend
    on what happened before. *)
Lemma retrieve_nba_data_run :
  exists v lines,
    (forall t,
        retrieve_nba_data aws t
        = (Returned v,
           t ++ HttpGet (NBA_ENDPOINT aws) (API_KEY aws) :: map Stdout lines))
    /\ Forall (fun msg =>
                 msg = "Successfully retrieved NBA data."
                 \/ exists detail,
                      msg = ("Error fetching NBA data: " ++ detail)%string)
              lines.
Proof.
  unfold retrieve_nba_data, raise_for_status, response_json. run.
  destruct (requests_get aws (NBA_ENDPOINT aws) (API_KEY aws)) as [r|e].
  - destruct (Nat.leb 400 (status_code r) && Nat.ltb (status_code r) 500).
    { eexists (JArr []), [_]. split.
      - intros t. rewrite <- List.app_assoc. reflexivity.
      - apply Forall_cons; [|apply Forall_nil].
        right. eexists. reflexivity. }
    destruct (Nat.leb 500 (status_code r) && Nat.ltb (status_code r) 600).
    { eexists (JArr []), [_]. split.
      - intros t. rewrite <- List.app_assoc. reflexivity.
      - apply Forall_cons; [|apply Forall_nil].
        right. eexists. reflexivity. }
    destruct (body r) as [v|e].
    + exists v, ["Successfully retrieved NBA data."]. split.
      * intros t. rewrite <- List.app_assoc. reflexivity.
      * apply Forall_cons; [|apply Forall_nil]. left. reflexivity.
    + eexists (JArr []), [_; _]. split.
      * intros t. rewrite <- !List.app_assoc. reflexivity.
      * apply Forall_cons; [left; reflexivity|].
        apply Forall_cons; [|apply Forall_nil].
        right. eexists. reflexivity.
  - eexists (JArr []), [_]. split.
    + intros t. rewrite <- List.app_assoc. reflexivity.
    + apply Forall_cons; [|apply Forall_nil].
      right. eexists. reflexivity.
Qed.

End Steps.

Lemma fetch_lines_are_not_serialization lines :
  Forall (fun msg =>
            msg = "Successfully retrieved NBA data."
            \/ exists detail,
                 msg = ("Error fetching NBA data: " ++ detail)%string)
         lines ->
  existsb is_serialization (map Stdout lines) = false
  /\ existsb is_upload (map Stdout lines) = false.
Proof.
  intros H. induction H as [|msg lines Hmsg Hl [IH1 IH2]];
    [split; reflexivity|].
  cbn [map existsb]. rewrite IH1, IH2.
  destruct Hmsg as [->|[detail ->]]; split; reflexivity.
Qed.

(** *** Runs on stand-in services *)

Example dumps_player :
  dumps (Setup_fakes.player 1 "A" 10)
  = Setup_fakes.quoted "{'PlayerID': 1, 'Team': 'A', 'Points': 10}".
Proof. reflexivity. Qed.

Example dumps_nested :
  dumps (JArr [JNull; JBool true; JInt (-120); JArr []; JObj [];
               JObj [(of_ascii_text "k", JArr [JInt 0; JBool false])]])
  = Setup_fakes.quoted "[null, true, -120, [], {}, {'k': [0, false]}]".
Proof. reflexivity. Qed.

(** a newline, a quotation mark, e acute, and a character above the basic
    plane *)
Example dumps_escapes :
  dumps (JStr [10; 34; 233; 128512]%N)
  = Setup_fakes.quoted "'\n\'\u00e9\ud83d\ude00'".
Proof. reflexivity. Qed.

Example main_on_two_players :
  main Setup_fakes.two_players []
  = (Returned tt,
     [Stdout "Starting NBA data lake setup...";
      CreateBucket "sanalytics-data-lake" (Some "us-west-2");
      Stdout "S3 bucket 'sanalytics-data-lake' created successfully.";
      Sleep 5;
      CreateDatabase "glue_nba_data_lake"
        "Database for NBA sports analytics data.";
      Stdout "Glue database 'glue_nba_data_lake' created successfully.";
      HttpGet (Some "https://feed.example/players") (Some "key");
      Stdout "Successfully retrieved NBA data.";
      Stdout "Formatting data to line-delimited JSON.";
      PutObject "sanalytics-data-lake" "raw-data/nba_player_data.jsonl"
        (Setup_fakes.quoted "{'PlayerID': 1, 'Team': 'A', 'Points': 10}"
         ++ String newline
              (Setup_fakes.quoted
                 "{'PlayerID': 2, 'Team': 'A', 'Points': 5}"))%string;
      Stdout "Uploaded data to S3 under key: raw-data/nba_player_data.jsonl";
      CreateTable "glue_nba_data_lake" nba_players;
      Stdout "Glue table 'nba_players' created successfully.";
      StartQueryExecution "CREATE DATABASE IF NOT EXISTS nba_analytics"
        "glue_nba_data_lake" "s3://sanalytics-data-lake/athena-results/";
      Stdout "Athena output location configured successfully.";
      Stdout "NBA data lake setup completed."]).
Proof. reflexivity. Qed.

Example main_on_unreachable_feed :
  main Setup_fakes.unreachable_feed []
  = (Returned tt,
     [Stdout "Starting NBA data lake setup...";
      CreateBucket "sanalytics-data-lake" (Some "us-west-2");
      Stdout "S3 bucket 'sanalytics-data-lake' created successfully.";
      Sleep 5;
      CreateDatabase "glue_nba_data_lake"
        "Database for NBA sports analytics data.";
      Stdout "Glue database 'glue_nba_data_lake' created successfully.";
      HttpGet (Some "https://feed.example/players") (Some "key");
      Stdout "Error fetching NBA data: Max retries exceeded";
      CreateTable "glue_nba_data_lake" nba_players;
      Stdout "Glue table 'nba_players' created successfully.";
      StartQueryExecution "CREATE DATABASE IF NOT EXISTS nba_analytics"
        "glue_nba_data_lake" "s3://sanalytics-data-lake/athena-results/";
      Stdout "Athena output location configured successfully.";
      Stdout "NBA data lake setup completed."]).
Proof. reflexivity. Qed.

(** a feed that answers with a number: the condition holds, and the loop
    over the value raises *)
Example main_on_a_number :
  fst (main (Setup_fakes.feed (Setup_fakes.ok (JInt 7))) [])
  = Raised (TypeError "'int' object is not iterable").
Proof. reflexivity. Qed.

(** *** The claims *)


(** C9, as stated: a failure of the feed is signalled to the caller.
    What the caller gets when the connection fails is what it gets when
    the feed answers with an empty array; nothing tells the two apart. *)
Lemma C9_counterexample :
  fetch_fails Setup_fakes.unreachable_feed
  /\ fetch_delivers Setup_fakes.empty_feed (JArr [])
  /\ ~ (fst (retrieve_nba_data Setup_fakes.unreachable_feed [])
        <> fst (retrieve_nba_data Setup_fakes.empty_feed [])).
Proof.
  split; [exact I|]. split.
  - eexists. split; [reflexivity|]. split; [left; simpl; lia|reflexivity].
  - intros H. apply H. reflexivity.
Qed.

(** C9, amended: when the feed fails (the request raises, the status is
    4xx or 5xx, or the body is not JSON) [retrieve_nba_data] does not
    raise: it prints a line that starts with "Error fetching NBA data: "
    and returns the empty list.  The caller is given nothing else: the
    result is the one of a feed that delivered an empty array. *)
Theorem C9_failure_gives_empty_list aws t :
  fetch_fails aws ->
  (exists t' detail,
      retrieve_nba_data aws t
      = (Returned (JArr []),
         t' ++ [Stdout ("Error fetching NBA data: " ++ detail)%string]))
  /\ (forall aws' t0,
        fetch_delivers aws' (JArr []) ->
        fst (retrieve_nba_data aws' t0) = fst (retrieve_nba_data aws t)).
Proof.
  intros Hfail.
  assert (H : exists t' detail,
             retrieve_nba_data aws t
             = (Returned (JArr []),
                t' ++ [Stdout ("Error fetching NBA data: " ++ detail)%string])).
  { unfold fetch_fails in Hfail.
    unfold retrieve_nba_data, raise_for_status, response_json. run.
    destruct (requests_get aws (NBA_ENDPOINT aws) (API_KEY aws)) as [r|e].
    - destruct (Nat.leb 400 (status_code r) && Nat.ltb (status_code r) 500)
        eqn:E4; [do 2 eexists; reflexivity|].
      destruct (Nat.leb 500 (status_code r) && Nat.ltb (status_code r) 600)
        eqn:E5; [do 2 eexists; reflexivity|].
      destruct Hfail as [Hrange|[_ [e Hbody]]].
      + exfalso.
        apply andb_false_iff in E4, E5.
        rewrite !Nat.leb_gt, !Nat.ltb_ge in *. lia.
      + rewrite Hbody. do 2 eexists. reflexivity.
    - do 2 eexists. reflexivity. }
  split; [exact H|].
  intros aws' t0 (r & Hget & Hstatus & Hbody).
  destruct H as (t' & detail & ->). cbn [fst].
  unfold retrieve_nba_data, raise_for_status, response_json. run.
  rewrite Hget.
  assert (E4 : Nat.leb 400 (status_code r) && Nat.ltb (status_code r) 500
               = false).
  { apply andb_false_iff. rewrite Nat.leb_gt, Nat.ltb_ge. lia. }
  assert (E5 : Nat.leb 500 (status_code r) && Nat.ltb (status_code r) 600
               = false).
  { apply andb_false_iff. rewrite Nat.leb_gt, Nat.ltb_ge. lia. }
  rewrite E4, E5, Hbody. reflexivity.
Qed.

(** C9 on a feed that answers 401. *)
Lemma C9_failure_gives_empty_list_witness :
  (exists t' detail,
      retrieve_nba_data Setup_fakes.unauthorized_feed []
      = (Returned (JArr []),
         t' ++ [Stdout ("Error fetching NBA data: " ++ detail)%string]))
  /\ (forall aws' t0,
        fetch_delivers aws' (JArr []) ->
        fst (retrieve_nba_data aws' t0)
        = fst (retrieve_nba_data Setup_fakes.unauthorized_feed [])).
Proof.
  apply (C9_failure_gives_empty_list Setup_fakes.unauthorized_feed []).
  left. simpl. lia.
Defined.

(** C10: when [retrieve_nba_data] returns a value that is false as a
    condition (the empty list above all), [main] neither formats nor
    uploads; it goes on to create the Glue table and to start the Athena
    query that sets the output location, and returns without raising. *)
Theorem C10_no_data_no_upload aws v :
  fst (retrieve_nba_data aws []) = Returned v ->
  py_truthy v = false ->
  exists t',
    main aws [] = (Returned tt, t')
    /\ existsb is_upload t' = false
    /\ existsb is_serialization t' = false
    /\ In (CreateTable GLUE_DATABASE nba_players) t'
    /\ In (StartQueryExecution "CREATE DATABASE IF NOT EXISTS nba_analytics"
             GLUE_DATABASE ATHENA_OUTPUT) t'.
Proof.
  intros Hv Hfalse.
  destruct (retrieve_nba_data_run aws) as (v' & lines & Hrun & Hlines).
  rewrite Hrun in Hv. cbn [fst] in Hv. injection Hv as ->.
  destruct (fetch_lines_are_not_serialization lines Hlines) as [Hs Hu].
  unfold main.
  rewrite (bind_returned (print "Starting NBA data lake setup...") _
             [] tt [Stdout "Starting NBA data lake setup..."] eq_refl).
  rewrite (bind_returned _ _ _ _ _ (initialize_s3_bucket_run aws _)).
  rewrite (bind_returned (time_sleep 5) _ _ tt _ eq_refl).
  rewrite (bind_returned _ _ _ _ _ (setup_glue_database_run aws _)).
  rewrite (bind_returned _ _ _ _ _ (Hrun _)).
  rewrite Hfalse.
  rewrite (bind_returned (ret tt) _ _ tt _ eq_refl).
  rewrite (bind_returned _ _ _ _ _ (define_glue_table_run aws _)).
  rewrite (bind_returned _ _ _ _ _ (configure_athena_output_run aws _)).
  unfold print, emit.
  eexists. split; [reflexivity|].
  repeat split.
  - rewrite !existsb_app. cbn [existsb]. rewrite Hu.
    destruct (create_bucket aws _ _), (create_database aws _ _),
      (create_table aws _ _), (start_query_execution aws _ _ _); reflexivity.
  - rewrite !existsb_app. cbn [existsb]. rewrite Hs.
    destruct (create_bucket aws _ _), (create_database aws _ _),
      (create_table aws _ _), (start_query_execution aws _ _ _); reflexivity.
  - rewrite !in_app_iff. cbn [In]. tauto.
  - rewrite !in_app_iff. cbn [In]. tauto.
Qed.

(** C10 on a feed that cannot be reached. *)
Lemma C10_no_data_no_upload_witness :
  exists t',
    main Setup_fakes.unreachable_feed [] = (Returned tt, t')
    /\ existsb is_upload t' = false
    /\ existsb is_serialization t' = false
    /\ In (CreateTable GLUE_DATABASE nba_players) t'
    /\ In (StartQueryExecution "CREATE DATABASE IF NOT EXISTS nba_analytics"
             GLUE_DATABASE ATHENA_OUTPUT) t'.
Proof.
  apply (C10_no_data_no_upload Setup_fakes.unreachable_feed (JArr []));
    reflexivity.
Defined.

End setup_nba_data_lake_facts.

(* ================================================================= *)
(** ** Further properties of [nba_visualization.py] *)

Module nba_visualization_runs.

Import nba_visualization nba_visualization_facts.

Lemma polls_of_rounds_other n id id' :
  id' <> id -> polls_of id' (rounds n id) = 0.
Proof.
  intros Hne. induction n as [|n IH]; [reflexivity|].
  cbn [rounds]. rewrite polls_of_app, IH.
  unfold polls_of, round. simpl.
  destruct (String.eqb_spec id' id); [congruence|reflexivity].
Qed.

Lemma reads_app t1 t2 : reads (t1 ++ t2) = reads t1 ++ reads t2.
Proof. unfold reads. apply filter_app. Qed.

Lemma reads_rounds n id : reads (rounds n id) = [].
Proof.
  induction n as [|n IH]; [reflexivity|].
  cbn [rounds]. rewrite reads_app, IH. reflexivity.
Qed.

Section Outcomes.
Variable c : services.

(** A request that raises ends the loop with that exception. *)
Lemma poll_until_done_raises n : forall fuel id t e,
  (forall k, k < n -> exists s',
      get_query_execution c id (polls_of id t + k) = Reply s'
      /\ leaves s' = false) ->
  get_query_execution c id (polls_of id t + n) = Throws e ->
  n < fuel ->
  poll_until_done c fuel id t
  = (Raised e, t ++ rounds n id ++ [GetQueryExecution id]).
Proof.
  induction n as [|n IH]; intros fuel id t e Hwait Hget Hfuel.
  - destruct fuel as [|fuel]; [lia|].
    rewrite Nat.add_0_r in Hget.
    cbn [poll_until_done]. unfold poll. run. rewrite Hget. reflexivity.
  - destruct fuel as [|fuel]; [lia|].
    destruct (Hwait 0) as [s0 [H0 Hs0]]; [lia|].
    rewrite Nat.add_0_r in H0.
    rewrite (poll_until_done_step c fuel id t s0 H0 Hs0).
    rewrite (IH fuel id (t ++ round id) e).
    + cbn [rounds]. rewrite <- !List.app_assoc. reflexivity.
    + intros k Hk. rewrite polls_of_app, polls_of_round.
      destruct (Hwait (S k)) as [s' [H1 H2]]; [lia|].
      exists s'. split; [|exact H2].
      rewrite <- H1. f_equal. lia.
    + rewrite polls_of_app, polls_of_round. rewrite <- Hget. f_equal. lia.
    + lia.
Qed.

(** However the loop ends, if it ends: it ended at the first request
    whose answer was in the list of the test, or was an exception. *)
Lemma poll_until_done_ended fuel : forall id t o t',
  poll_until_done c fuel id t = (o, t') ->
  o <> OutOfFuel ->
  exists n,
    n < fuel
    /\ (forall k, k < n -> exists s',
           get_query_execution c id (polls_of id t + k) = Reply s'
           /\ leaves s' = false)
    /\ t' = t ++ rounds n id ++ [GetQueryExecution id]
    /\ match get_query_execution c id (polls_of id t + n) with
       | Reply s => leaves s = true /\ o = Returned s
       | Throws e => o = Raised e
       end.
Proof.
  induction fuel as [|fuel IH]; intros id t o t' Hrun Ho.
  - cbn in Hrun. unfold out_of_fuel in Hrun.
    injection Hrun as <- _. congruence.
  - destruct (get_query_execution c id (polls_of id t)) as [s|e] eqn:Hget.
    + destruct (leaves s) eqn:Hs.
      * exists 0. rewrite Nat.add_0_r, Hget.
        cbn [poll_until_done] in Hrun. unfold poll in Hrun. revert Hrun. run.
        unfold leaves in Hs. rewrite Hget, Hs. intros [= <- <-].
        repeat split; try lia; try reflexivity. exact Hs.
      * rewrite (poll_until_done_step c fuel id t s Hget Hs) in Hrun.
        destruct (IH id (t ++ round id) o t' Hrun Ho)
          as (n & Hn & Hwait & Ht' & Hlast).
        rewrite polls_of_app, polls_of_round in Hwait, Hlast.
        exists (S n). repeat split.
        -- lia.
        -- intros k Hk. destruct k as [|k].
           ++ exists s. rewrite Nat.add_0_r. split; assumption.
           ++ destruct (Hwait k) as [s' [H1 H2]]; [lia|].
              exists s'. split; [|exact H2].
              rewrite <- H1. f_equal. lia.
        -- rewrite Ht'. cbn [rounds]. rewrite <- !List.app_assoc. reflexivity.
        -- replace (polls_of id t + S n) with (polls_of id t + 1 + n) by lia.
           exact Hlast.
    + exists 0. rewrite Nat.add_0_r, Hget.
      cbn [poll_until_done] in Hrun. unfold poll in Hrun. revert Hrun. run.
      rewrite Hget. intros [= <- <-].
      repeat split; try lia; reflexivity.
Qed.

End Outcomes.

Section Traces.
Variable c : services.

(** What [fetch_query_results] adds to the trace: status requests for its
    own handle, sleeps of two seconds, and printed lines. *)
Lemma fetch_query_results_adds fuel id out t :
  exists d,
    snd (fetch_query_results c fuel id out t) = t ++ d
    /\ Forall (fun e => e = GetQueryExecution id \/ e = Sleep 2
                        \/ exists msg, e = Stdout msg) d.
Proof.
  assert (Hrounds : forall n,
             Forall (fun e => e = GetQueryExecution id \/ e = Sleep 2
                              \/ exists msg, e = Stdout msg)
                    (rounds n id)).
  { induction n as [|n IH]; [constructor|].
    cbn [rounds round app].
    apply Forall_cons; [left; reflexivity|].
    apply Forall_cons; [right; left; reflexivity|exact IH]. }
  unfold fetch_query_results. unfold bind at 1.
  destruct (poll_until_done_trace c fuel id t) as [n [H|H]];
    destruct (poll_until_done c fuel id t) as [[s|e|] t1]; cbn [snd] in H;
    subst t1.
  all: try (destruct (String.eqb s "SUCCEEDED"); run; cbn [snd]).
  all: rewrite <- ?List.app_assoc; eexists; split; [reflexivity|].
  all: repeat (apply Forall_app; split); try apply Hrounds.
  all: repeat first [apply Forall_nil | apply Forall_cons].
  all: first [left; reflexivity
             |right; left; reflexivity
             |right; right; eexists; reflexivity].
Qed.

Lemma fetch_query_results_reads fuel id out t :
  reads (snd (fetch_query_results c fuel id out t)) = reads t.
Proof.
  destruct (fetch_query_results_adds fuel id out t) as (d & -> & Hd).
  rewrite reads_app. rewrite <- (List.app_nil_r (reads t)) at 2. f_equal.
  induction Hd as [|e d He Hd IH]; [reflexivity|].
  unfold reads in *. cbn [filter].
  destruct He as [->|[->|[msg ->]]]; exact IH.
Qed.

Lemma visualize_data_reads_its_file path t file_path :
  In (ReadCsv file_path) (snd (visualize_data c path t)) ->
  In (ReadCsv file_path) t \/ file_path = path.
Proof.
  unfold visualize_data. run.
  destruct (read_csv c path) as [data|e]; [destruct (plt_show c data)|];
    cbn [snd]; rewrite !in_app_iff; cbn [In]; intros H;
    repeat match goal with
           | H : _ \/ _ |- _ => destruct H as [H|H]
           | H : False |- _ => destruct H
           | H : ReadCsv _ = ReadCsv _ |- _ => injection H as H
           | H : ShowBarplot _ = ReadCsv _ |- _ => discriminate H
           end; auto.
Qed.

End Traces.

(** *** What the code shows beyond the claims *)

(** An exception of [get_query_execution] (an unknown handle, a lost
    connection) is not caught and the request is not repeated: when the
    statuses before kept the loop going and the next request raises,
    [fetch_query_results] raises that same exception, right after that
    request. *)
Theorem engine_exception_passes_through c id out t n fuel e :
  (forall k, k < n -> exists s,
      get_query_execution c id (polls_of id t + k) = Reply s
      /\ leaves s = false) ->
  get_query_execution c id (polls_of id t + n) = Throws e ->
  n < fuel ->
  fetch_query_results c fuel id out t
  = (Raised e, t ++ rounds n id ++ [GetQueryExecution id])
  /\ polls_of id (t ++ rounds n id ++ [GetQueryExecution id])
     = polls_of id t + (n + 1).
Proof.
  intros Hwait Hget Hfuel. split.
  - unfold fetch_query_results. unfold bind at 1.
    rewrite (poll_until_done_raises c n fuel id t e Hwait Hget Hfuel).
    reflexivity.
  - rewrite !polls_of_app, polls_of_rounds, polls_of_poll. reflexivity.
Qed.

(** on an engine that has forgotten the handle at the second request *)
Lemma engine_exception_passes_through_witness :
  fetch_query_results Fakes.purged_engine 9 "q-1" "s3://out/" []
  = (Raised (Exn "InvalidRequestException" "QueryExecution q-1 was not found"),
     [] ++ rounds 1 "q-1" ++ [GetQueryExecution "q-1"])
  /\ polls_of "q-1" ([] ++ rounds 1 "q-1" ++ [GetQueryExecution "q-1"])
     = polls_of "q-1" [] + (1 + 1).
Proof.
  apply (engine_exception_passes_through Fakes.purged_engine
           "q-1" "s3://out/" [] 1 9).
  - intros k Hk. exists "RUNNING". destruct k; [split; reflexivity|lia].
  - reflexivity.
  - lia.
Defined.

(** Whatever the statuses before are (QUEUED, RUNNING, any other text),
    the call ends at the first SUCCEEDED or FAILED one: it has made
    one request per status seen, slept two seconds between two requests
    and not after the last, and it returns the path when that status is
    SUCCEEDED and raises otherwise. *)
Theorem ends_at_first_succeeded_or_failed c id out t n fuel s :
  (forall k, k < n -> exists s',
      get_query_execution c id (polls_of id t + k) = Reply s'
      /\ leaves s' = false) ->
  get_query_execution c id (polls_of id t + n) = Reply s ->
  leaves s = true ->
  n < fuel ->
  fst (fetch_query_results c fuel id out t)
  = (if String.eqb s "SUCCEEDED"
     then Returned (out ++ id ++ ".csv")%string
     else Raised (Exception "Query failed!"))
  /\ polls_of id (snd (fetch_query_results c fuel id out t))
     = polls_of id t + (n + 1)
  /\ slept (snd (fetch_query_results c fuel id out t)) = slept t + 2 * n.
Proof.
  intros Hwait Hget Hs Hfuel.
  rewrite (fetch_query_results_leaves c n fuel id out t s Hwait Hget Hs Hfuel).
  destruct (String.eqb s "SUCCEEDED"); cbn [fst snd];
    rewrite !polls_of_app, !slept_app, polls_of_rounds, slept_rounds;
    unfold polls_of; simpl; rewrite String.eqb_refl; simpl;
    repeat split; lia.
Qed.

(** on the engine that answers QUEUED, RUNNING, FAILED *)
Lemma ends_at_first_succeeded_or_failed_witness :
  fst (fetch_query_results Fakes.failing_engine 5 "q-1" "s3://out/" [])
  = Raised (Exception "Query failed!")
  /\ polls_of "q-1"
       (snd (fetch_query_results Fakes.failing_engine 5 "q-1" "s3://out/" []))
     = 0 + (2 + 1)
  /\ slept
       (snd (fetch_query_results Fakes.failing_engine 5 "q-1" "s3://out/" []))
     = 0 + 2 * 2.
Proof.
  apply (ends_at_first_succeeded_or_failed Fakes.failing_engine
           "q-1" "s3://out/" [] 2 5 "FAILED").
  - intros k Hk. destruct k as [|[|k]].
    + exists "QUEUED". split; reflexivity.
    + exists "RUNNING". split; reflexivity.
    + lia.
  - reflexivity.
  - reflexivity.
  - lia.
Defined.

(** How a call that has ended came to its end. *)
Lemma fetch_query_results_ended c fuel id out t o t' :
  fetch_query_results c fuel id out t = (o, t') ->
  o <> OutOfFuel ->
  exists n,
    n < fuel
    /\ (forall k, k < n -> exists s',
           get_query_execution c id (polls_of id t + k) = Reply s'
           /\ leaves s' = false)
    /\ match get_query_execution c id (polls_of id t + n) with
       | Reply s =>
           leaves s = true
           /\ (o, t')
              = (if String.eqb s "SUCCEEDED" then
                   (Returned (out ++ id ++ ".csv")%string,
                    t ++ rounds n id
                      ++ [GetQueryExecution id; Stdout "Query succeeded!";
                          Stdout ("Query results saved to: "
                                  ++ out ++ id ++ ".csv")%string])
                 else
                   (Raised (Exception "Query failed!"),
                    t ++ rounds n id ++ [GetQueryExecution id]))
       | Throws e =>
           (o, t') = (Raised e, t ++ rounds n id ++ [GetQueryExecution id])
       end.
Proof.
  intros Hrun Ho.
  assert (Hloop : exists o1 t1, poll_until_done c fuel id t = (o1, t1)
                                /\ o1 <> OutOfFuel).
  { unfold fetch_query_results in Hrun. unfold bind at 1 in Hrun.
    destruct (poll_until_done c fuel id t) as [o1 t1].
    exists o1, t1. split; [reflexivity|].
    intros ->. injection Hrun as <- _. congruence. }
  destruct Hloop as (o1 & t1 & Hloop & Ho1).
  destruct (poll_until_done_ended c fuel id t o1 t1 Hloop Ho1)
    as (n & Hn & Hwait & _ & Hlast).
  exists n. split; [exact Hn|]. split; [exact Hwait|].
  destruct (get_query_execution c id (polls_of id t + n)) as [s|e] eqn:Hget.
  - destruct Hlast as [Hs _]. split; [exact Hs|].
    rewrite <- Hrun.
    apply (fetch_query_results_leaves c n fuel id out t s); assumption.
  - rewrite <- Hrun.
    unfold fetch_query_results. unfold bind at 1.
    rewrite (poll_until_done_raises c n fuel id t e Hwait Hget Hn).
    reflexivity.
Qed.

(** The other way round: when [fetch_query_results] has returned or
    raised, the answer to its last request was SUCCEEDED (it returned the
    path), FAILED (it raised [Exception("Query failed!")]) or an
    exception (it raised that one), and every answer before was a status
    other than these two.  So a path is returned only for a query the
    engine reported as SUCCEEDED.  Up to its end the call has made one
    request per answer and slept two seconds between two requests. *)
Theorem ended_only_on_a_final_answer c fuel id out t o t' :
  fetch_query_results c fuel id out t = (o, t') ->
  o <> OutOfFuel ->
  exists n,
    n < fuel
    /\ (forall k, k < n -> exists s',
           get_query_execution c id (polls_of id t + k) = Reply s'
           /\ leaves s' = false)
    /\ polls_of id t' = polls_of id t + (n + 1)
    /\ slept t' = slept t + 2 * n
    /\ match get_query_execution c id (polls_of id t + n) with
       | Reply s =>
           (s = "SUCCEEDED" /\ o = Returned (out ++ id ++ ".csv")%string)
           \/ (s = "FAILED" /\ o = Raised (Exception "Query failed!"))
       | Throws e => o = Raised e
       end.
Proof.
  intros Hrun Ho.
  destruct (fetch_query_results_ended c fuel id out t o t' Hrun Ho)
    as (n & Hn & Hwait & Hlast).
  exists n. split; [exact Hn|]. split; [exact Hwait|].
  assert (Hcount : forall d,
             polls_of id d = 0 -> slept d = 0 ->
             polls_of id (t ++ rounds n id ++ GetQueryExecution id :: d)
             = polls_of id t + (n + 1)
             /\ slept (t ++ rounds n id ++ GetQueryExecution id :: d)
                = slept t + 2 * n).
  { intros d Hp Hd.
    change (GetQueryExecution id :: d) with ([GetQueryExecution id] ++ d).
    rewrite !polls_of_app, !slept_app, polls_of_rounds, slept_rounds,
      polls_of_poll, Hp, Hd.
    simpl. lia. }
  destruct (get_query_execution c id (polls_of id t + n)) as [s|e].
  - destruct Hlast as [Hs Hpair].
    destruct (String.eqb s "SUCCEEDED") eqn:E; injection Hpair as -> ->.
    + destruct (Hcount [Stdout "Query succeeded!";
                        Stdout ("Query results saved to: "
                                ++ out ++ id ++ ".csv")%string])
        as [H1 H2]; try reflexivity.
      split; [exact H1|]. split; [exact H2|].
      left. split; [apply String.eqb_eq, E|reflexivity].
    + destruct (Hcount []) as [H1 H2]; try reflexivity.
      split; [exact H1|]. split; [exact H2|].
      right. split; [|reflexivity].
      unfold leaves, str_in in Hs. simpl in Hs. rewrite E in Hs.
      destruct (String.eqb_spec s "FAILED"); [assumption|discriminate Hs].
  - injection Hlast as -> ->.
    destruct (Hcount []) as [H1 H2]; try reflexivity.
    split; [exact H1|]. split; [exact H2|reflexivity].
Qed.

(** on the engine that is RUNNING three times *)
Lemma ended_only_on_a_final_answer_witness :
  exists n,
    n < 4
    /\ (forall k, k < n -> exists s',
           get_query_execution Fakes.slow_engine "q-1" (polls_of "q-1" [] + k)
           = Reply s'
           /\ leaves s' = false)
    /\ polls_of "q-1"
         (snd (fetch_query_results Fakes.slow_engine 4 "q-1" "s3://out/" []))
       = polls_of "q-1" [] + (n + 1)
    /\ slept
         (snd (fetch_query_results Fakes.slow_engine 4 "q-1" "s3://out/" []))
       = slept [] + 2 * n
    /\ match get_query_execution Fakes.slow_engine "q-1"
               (polls_of "q-1" [] + n) with
       | Reply s =>
           (s = "SUCCEEDED"
            /\ fst (fetch_query_results Fakes.slow_engine 4 "q-1"
                      "s3://out/" [])
               = Returned ("s3://out/" ++ "q-1" ++ ".csv")%string)
           \/ (s = "FAILED"
               /\ fst (fetch_query_results Fakes.slow_engine 4 "q-1"
                         "s3://out/" [])
                  = Raised (Exception "Query failed!"))
       | Throws e =>
           fst (fetch_query_results Fakes.slow_engine 4 "q-1" "s3://out/" [])
           = Raised e
       end.
Proof.
  apply (ended_only_on_a_final_answer Fakes.slow_engine 4 "q-1" "s3://out/" []).
  - apply surjective_pairing.
  - vm_compute. discriminate.
Defined.

(** [fetch_query_results] keeps to its handle: it submits nothing, reads
    no result file, and asks for the status of no other query. *)
Theorem polling_keeps_to_its_handle c fuel id out t :
  submissions (snd (fetch_query_results c fuel id out t)) = submissions t
  /\ reads (snd (fetch_query_results c fuel id out t)) = reads t
  /\ (forall other, other <> id ->
        polls_of other (snd (fetch_query_results c fuel id out t))
        = polls_of other t).
Proof.
  split; [apply fetch_query_results_submissions|].
  split; [apply fetch_query_results_reads|].
  intros other Hother.
  destruct (fetch_query_results_adds c fuel id out t) as (d & -> & Hd).
  rewrite polls_of_app. rewrite <- (Nat.add_0_r (polls_of other t)) at 2.
  f_equal.
  induction Hd as [|e d He Hd IH]; [reflexivity|].
  unfold polls_of in *. cbn [filter].
  destruct He as [->|[->|[msg ->]]]; cbn [is_poll_of]; try exact IH.
  destruct (String.eqb_spec other id); [congruence|exact IH].
Qed.

(** the requests for [q-1] leave the count for [q-2] at zero *)
Lemma polling_keeps_to_its_handle_witness :
  polls_of "q-2"
    (snd (fetch_query_results Fakes.slow_engine 9 "q-1" "s3://out/" []))
  = polls_of "q-2" [].
Proof.
  apply (proj2 (proj2 (polling_keeps_to_its_handle
                         Fakes.slow_engine 9 "q-1" "s3://out/" []))).
  discriminate.
Defined.

(** A whole run on a query that succeeds: [main] submits the query once,
    polls the handle the submission gave it until SUCCEEDED, then reads
    the file at the output location followed by that handle and [.csv],
    and plots what it read; an exception of the read or of the plot ends
    the run. *)
Theorem main_reads_the_result_of_its_query c n fuel qid :
  start_query_execution c sql_query database_name query_output_location
  = Reply qid ->
  (forall k, k < n -> exists s,
      get_query_execution c qid k = Reply s /\ leaves s = false) ->
  get_query_execution c qid n = Reply "SUCCEEDED" ->
  n < fuel ->
  let path := (query_output_location ++ qid ++ ".csv")%string in
  main c fuel []
  = (match read_csv c path with
     | Reply data =>
         match plt_show c data with
         | Reply _ => Returned tt
         | Throws e => Raised e
         end
     | Throws e => Raised e
     end,
     [Stdout "Running Athena query...";
      StartQueryExecution sql_query database_name query_output_location;
      Stdout "Fetching query results..."]
     ++ rounds n qid
     ++ [GetQueryExecution qid;
         Stdout "Query succeeded!";
         Stdout ("Query results saved to: " ++ path)%string;
         Stdout "Visualizing data...";
         ReadCsv path]
     ++ match read_csv c path with
        | Reply data => [ShowBarplot data]
        | Throws _ => []
        end).
Proof.
  intros Hstart Hwait Hget Hfuel path.
  unfold main, query_athena. unfold bind at 1 2 3. run. cbn [app].
  rewrite Hstart.
  rewrite (fetch_query_results_leaves c n fuel qid _ _ "SUCCEEDED");
    try assumption; try reflexivity.
  change (String.eqb "SUCCEEDED" "SUCCEEDED") with true. cbv iota.
  unfold visualize_data. run. fold path.
  destruct (read_csv c path) as [data|e];
    [destruct (plt_show c data) as [[]|e]|];
    rewrite <- !List.app_assoc; reflexivity.
Qed.

(** on the engine that is RUNNING three times *)
Lemma main_reads_the_result_of_its_query_witness :
  main Fakes.slow_engine 8 []
  = (Returned tt,
     [Stdout "Running Athena query...";
      StartQueryExecution sql_query database_name query_output_location;
      Stdout "Fetching query results..."]
     ++ rounds 3 "q-1"
     ++ [GetQueryExecution "q-1";
         Stdout "Query succeeded!";
         Stdout "Query results saved to: s3://players-nba/raw-data/q-1.csv";
         Stdout "Visualizing data...";
         ReadCsv "s3://players-nba/raw-data/q-1.csv"]
     ++ [ShowBarplot "Team,Points"]).
Proof.
  apply (main_reads_the_result_of_its_query Fakes.slow_engine 3 8 "q-1").
  - reflexivity.
  - intros k Hk. exists "RUNNING".
    destruct k as [|[|[|k]]]; try (split; reflexivity). lia.
  - reflexivity.
  - lia.
Defined.

(** No result is read before the engine says so: whenever a run of
    [main] reads a file, the submission had returned a handle, the engine
    had answered SUCCEEDED for it, and the file is the one at the output
    location followed by that handle and [.csv]. *)
Theorem main_reads_only_after_succeeded c fuel file_path :
  In (ReadCsv file_path) (snd (main c fuel [])) ->
  exists qid n,
    start_query_execution c sql_query database_name query_output_location
    = Reply qid
    /\ get_query_execution c qid n = Reply "SUCCEEDED"
    /\ (forall k, k < n -> exists s,
           get_query_execution c qid k = Reply s /\ leaves s = false)
    /\ file_path = (query_output_location ++ qid ++ ".csv")%string.
Proof.
  unfold main, query_athena. unfold bind at 1 2 3. run. cbn [app].
  destruct (start_query_execution c sql_query database_name
              query_output_location) as [qid|e].
  2:{ cbn [snd In]. intros [H|[H|[]]]; discriminate H. }
  set (t3 := [Stdout "Running Athena query...";
              StartQueryExecution sql_query database_name
                query_output_location;
              Stdout "Fetching query results..."]).
  pose proof (fetch_query_results_reads c fuel qid query_output_location t3)
    as Hreads.
  destruct (fetch_query_results c fuel qid query_output_location t3)
    as [o t'] eqn:Hrun.
  cbn [snd] in Hreads. change (reads t3) with (@nil event) in Hreads.
  assert (Hno : forall d, ~ In (ReadCsv file_path) (t' ++ [Stdout d])).
  { intros d Hin. apply in_app_iff in Hin as [Hin|[Hin|[]]];
      [|discriminate Hin].
    assert (Hr : In (ReadCsv file_path) (reads t'))
      by (apply filter_In; split; [exact Hin|reflexivity]).
    rewrite Hreads in Hr. destruct Hr. }
  destruct o as [path|e|].
  - intros Hin. apply visualize_data_reads_its_file in Hin.
    destruct Hin as [Hin|Hin]; [destruct (Hno _ Hin)|]. subst file_path.
    destruct (fetch_query_results_ended c fuel qid query_output_location
                t3 _ _ Hrun)
      as (n & _ & Hwait & Hlast); [discriminate|].
    change (polls_of qid t3) with 0 in Hwait, Hlast. cbn [Nat.add] in *.
    exists qid, n.
    destruct (get_query_execution c qid n) as [s|e] eqn:Hget;
      [|discriminate Hlast].
    destruct Hlast as [_ Hpair].
    destruct (String.eqb s "SUCCEEDED") eqn:E; [|discriminate Hpair].
    apply String.eqb_eq in E. subst s.
    injection Hpair as -> _.
    repeat split; [exact Hwait].
  - cbn [snd]. intros Hin. exfalso. apply (Hno "x").
    apply in_app_iff. left. exact Hin.
  - cbn [snd]. intros Hin. exfalso. apply (Hno "x").
    apply in_app_iff. left. exact Hin.
Qed.

(** the one file read on the engine that is RUNNING three times *)
Lemma main_reads_only_after_succeeded_witness :
  exists qid n,
    start_query_execution Fakes.slow_engine sql_query database_name
      query_output_location
    = Reply qid
    /\ get_query_execution Fakes.slow_engine qid n = Reply "SUCCEEDED"
    /\ (forall k, k < n -> exists s,
           get_query_execution Fakes.slow_engine qid k = Reply s
           /\ leaves s = false)
    /\ "s3://players-nba/raw-data/q-1.csv"
       = (query_output_location ++ qid ++ ".csv")%string.
Proof.
  apply (main_reads_only_after_succeeded Fakes.slow_engine 8
           "s3://players-nba/raw-data/q-1.csv").
  vm_compute. tauto.
Defined.

End nba_visualization_runs.

(* ================================================================= *)
(** ** Further properties of [setup_nba_data_lake.py] *)

Module setup_nba_data_lake_runs.

Import Json Json_facts setup_nba_data_lake setup_nba_data_lake_facts.

Lemma bind_raised {A B : Type} (m : prog event A) (k : A -> prog event B)
    t e t' :
  m t = (Raised e, t') -> bind m k t = (Raised e, t').
Proof. intros H. unfold bind. rewrite H. reflexivity. Qed.

Lemma calls_app t1 t2 : calls (t1 ++ t2) = calls t1 ++ calls t2.
Proof. unfold calls. apply filter_app. Qed.

Lemma calls_lines lines : calls (map Stdout lines) = [].
Proof. induction lines as [|l lines IH]; [reflexivity|exact IH]. Qed.

Section Steps.
Variable aws : services.

Lemma upload_to_s3_run content key t :
  upload_to_s3 aws content key t
  = (Returned tt,
     t ++ [PutObject BUCKET_NAME key content;
           Stdout (match put_object aws BUCKET_NAME key content with
                   | Reply _ => "Uploaded data to S3 under key: " ++ key
                   | Throws error =>
                       "Error uploading data to S3: " ++ exn_msg error
                   end)%string]).
Proof.
  unfold upload_to_s3. run.
  destruct (put_object aws BUCKET_NAME key content);
    rewrite <- List.app_assoc; reflexivity.
Qed.

(** Either the feed delivers and [retrieve_nba_data] returns what it
    delivered, or the feed fails and it returns the empty list. *)
Lemma retrieve_nba_data_cases t :
  (exists v, fetch_delivers aws v
             /\ fst (retrieve_nba_data aws t) = Returned v)
  \/ (fetch_fails aws /\ fst (retrieve_nba_data aws t) = Returned (JArr [])).
Proof.
  unfold fetch_delivers, fetch_fails.
  unfold retrieve_nba_data, raise_for_status, response_json. run.
  destruct (requests_get aws (NBA_ENDPOINT aws) (API_KEY aws)) as [r|e];
    [|right; split; [exact I|reflexivity]].
  destruct (Nat.leb 400 (status_code r) && Nat.ltb (status_code r) 500)
    eqn:E4.
  { right. split; [|reflexivity]. left.
    apply andb_true_iff in E4 as [H1 H2].
    apply Nat.leb_le in H1. apply Nat.ltb_lt in H2. lia. }
  destruct (Nat.leb 500 (status_code r) && Nat.ltb (status_code r) 600)
    eqn:E5.
  { right. split; [|reflexivity]. left.
    apply andb_true_iff in E5 as [H1 H2].
    apply Nat.leb_le in H1. apply Nat.ltb_lt in H2. lia. }
  assert (Hout : status_code r < 400 \/ 600 <= status_code r).
  { apply andb_false_iff in E4, E5.
    rewrite !Nat.leb_gt, !Nat.ltb_ge in *. lia. }
  destruct (body r) as [v|e] eqn:Hbody.
  - left. exists v. split; [|reflexivity].
    exists r. repeat split; assumption.
  - right. split; [|reflexivity]. right. split; [exact Hout|].
    exists e. reflexivity.
Qed.

End Steps.

Lemma delivers_or_fails aws :
  ~ (fetch_fails aws /\ exists v, fetch_delivers aws v).
Proof.
  unfold fetch_fails, fetch_delivers.
  intros [Hfail (v & r & Hget & Hstatus & Hbody)].
  rewrite Hget in Hfail.
  destruct Hfail as [Hrange|[_ [e He]]]; [lia|congruence].
Qed.

Lemma delivered_is_returned aws v t :
  fetch_delivers aws v -> fst (retrieve_nba_data aws t) = Returned v.
Proof.
  intros Hv.
  destruct (retrieve_nba_data_cases aws t)
    as [(v' & Hv' & Hret)|[Hfail _]].
  - rewrite Hret. f_equal.
    destruct Hv as (r & Hget & _ & Hbody).
    destruct Hv' as (r' & Hget' & _ & Hbody').
    congruence.
  - exfalso. apply (delivers_or_fails aws).
    split; [exact Hfail|exists v; exact Hv].
Qed.

(** *** What the code shows beyond the claims *)

(** [retrieve_nba_data] never raises, and what it returns is settled by
    the feed alone: the decoded body when the request went through with a
    status outside 400..599 (a 3xx or 1xx answer counts as delivered) and
    the body is JSON, the empty list in every other case.  The two cases
    exclude each other. *)
Theorem retrieve_nba_data_returns_body_or_empty aws t :
  ((exists v, fetch_delivers aws v
              /\ fst (retrieve_nba_data aws t) = Returned v)
   \/ (fetch_fails aws
       /\ fst (retrieve_nba_data aws t) = Returned (JArr [])))
  /\ ~ (fetch_fails aws /\ exists v, fetch_delivers aws v).
Proof.
  split; [apply retrieve_nba_data_cases|apply delivers_or_fails].
Qed.


(** The three ways a run of [main] can go. *)
Lemma main_run_cases aws v :
  fst (retrieve_nba_data aws []) = Returned v ->
  let first :=
    [CreateBucket BUCKET_NAME (Some REGION);
     Sleep 5;
     CreateDatabase GLUE_DATABASE "Database for NBA sports analytics data.";
     HttpGet (NBA_ENDPOINT aws) (API_KEY aws)] in
  let last :=
    [CreateTable GLUE_DATABASE nba_players;
     StartQueryExecution "CREATE DATABASE IF NOT EXISTS nba_analytics"
       GLUE_DATABASE ATHENA_OUTPUT] in
  (py_truthy v = false ->
   fst (main aws []) = Returned tt
   /\ calls (snd (main aws [])) = first ++ last)
  /\ (forall records,
        py_truthy v = true -> py_iter v = Some records ->
        fst (main aws []) = Returned tt
        /\ calls (snd (main aws []))
           = first
             ++ [PutObject BUCKET_NAME "raw-data/nba_player_data.jsonl"
                   (String.concat (str1 newline) (map dumps records))]
             ++ last)
  /\ (py_truthy v = true -> py_iter v = None ->
      fst (main aws [])
      = Raised (TypeError ("'" ++ py_type_name v
                           ++ "' object is not iterable")%string)
      /\ calls (snd (main aws [])) = first).
Proof.
  intros Hv first last.
  destruct (retrieve_nba_data_run aws) as (v' & lines & Hrun & _).
  rewrite Hrun in Hv. cbn [fst] in Hv. injection Hv as ->.
  unfold main.
  rewrite (bind_returned (print "Starting NBA data lake setup...") _
             [] tt [Stdout "Starting NBA data lake setup..."] eq_refl).
  rewrite (bind_returned _ _ _ _ _ (initialize_s3_bucket_run aws _)).
  rewrite (bind_returned (time_sleep 5) _ _ tt _ eq_refl).
  rewrite (bind_returned _ _ _ _ _ (setup_glue_database_run aws _)).
  rewrite (bind_returned _ _ _ _ _ (Hrun _)).
  split; [|split].
  - intros Hfalse. rewrite Hfalse.
    rewrite (bind_returned (ret tt) _ _ tt _ eq_refl).
    rewrite (bind_returned _ _ _ _ _ (define_glue_table_run aws _)).
    rewrite (bind_returned _ _ _ _ _ (configure_athena_output_run aws _)).
    unfold print, emit. cbn [fst snd]. split; [reflexivity|].
    rewrite !calls_app. cbn [calls filter is_call app].
    fold (calls (map Stdout lines)). rewrite calls_lines. reflexivity.
  - intros records Htrue Hiter. rewrite Htrue. cbv iota.
    assert (Hformat : forall t,
               format_as_jsonl v t
               = (Returned (String.concat (str1 newline) (map dumps records)),
                  t ++ [Stdout "Formatting data to line-delimited JSON."])).
    { intros t. unfold format_as_jsonl. rewrite Hiter. reflexivity. }
    assert (Hupload : forall t,
               bind (format_as_jsonl v)
                 (fun jsonl_data =>
                    upload_to_s3 aws jsonl_data
                      "raw-data/nba_player_data.jsonl") t
               = (Returned tt,
                  (t ++ [Stdout "Formatting data to line-delimited JSON."])
                  ++ [PutObject BUCKET_NAME "raw-data/nba_player_data.jsonl"
                        (String.concat (str1 newline) (map dumps records));
                      Stdout
                        (match put_object aws BUCKET_NAME
                                 "raw-data/nba_player_data.jsonl"
                                 (String.concat (str1 newline)
                                    (map dumps records)) with
                         | Reply _ =>
                             "Uploaded data to S3 under key: "
                             ++ "raw-data/nba_player_data.jsonl"
                         | Throws error =>
                             "Error uploading data to S3: " ++ exn_msg error
                         end)%string])).
    { intros t. rewrite (bind_returned _ _ _ _ _ (Hformat t)).
      apply upload_to_s3_run. }
    rewrite (bind_returned _ _ _ _ _ (Hupload _)).
    rewrite (bind_returned _ _ _ _ _ (define_glue_table_run aws _)).
    rewrite (bind_returned _ _ _ _ _ (configure_athena_output_run aws _)).
    unfold print, emit. cbn [fst snd]. split; [reflexivity|].
    rewrite !calls_app. cbn [calls filter is_call app].
    fold (calls (map Stdout lines)). rewrite calls_lines. reflexivity.
  - intros Htrue Hiter. rewrite Htrue. cbv iota.
    assert (Hformat : forall t,
               format_as_jsonl v t
               = (Raised (TypeError ("'" ++ py_type_name v
                                     ++ "' object is not iterable")%string),
                  t ++ [Stdout "Formatting data to line-delimited JSON."])).
    { intros t. unfold format_as_jsonl. rewrite Hiter. reflexivity. }
    rewrite (bind_raised _ _ _ _ _
               (bind_raised _
                  (fun jsonl_data =>
                     upload_to_s3 aws jsonl_data
                       "raw-data/nba_player_data.jsonl") _ _ _ (Hformat _))).
    cbn [fst snd]. split; [reflexivity|].
    rewrite !calls_app. cbn [calls filter is_call app].
    fold (calls (map Stdout lines)). rewrite calls_lines. reflexivity.
Qed.

(** A whole run of [main], for every behaviour of the services.
    [retrieve_nba_data] returns some value.  The bucket, the sleep of
    five seconds, the database and the request to the feed come first,
    each once and in this order, whether or not the earlier ones failed.
    Then: with nothing fetched, the table and the Athena query; with
    something to iterate over, one upload of its serialization under
    [raw-data/nba_player_data.jsonl], then the table and the query; and
    [main] returns.  Only a fetched value that is true but cannot be
    iterated over (a number, [true]) makes [main] raise, a [TypeError],
    before any upload, table or query. *)
Theorem main_runs_every_step aws :
  exists v,
    fst (retrieve_nba_data aws []) = Returned v
    /\ let first :=
         [CreateBucket BUCKET_NAME (Some REGION);
          Sleep 5;
          CreateDatabase GLUE_DATABASE
            "Database for NBA sports analytics data.";
          HttpGet (NBA_ENDPOINT aws) (API_KEY aws)] in
       let last :=
         [CreateTable GLUE_DATABASE nba_players;
          StartQueryExecution "CREATE DATABASE IF NOT EXISTS nba_analytics"
            GLUE_DATABASE ATHENA_OUTPUT] in
       (py_truthy v = false ->
        fst (main aws []) = Returned tt
        /\ calls (snd (main aws [])) = first ++ last)
       /\ (forall records,
             py_truthy v = true -> py_iter v = Some records ->
             fst (main aws []) = Returned tt
             /\ calls (snd (main aws []))
                = first
                  ++ [PutObject BUCKET_NAME "raw-data/nba_player_data.jsonl"
                        (String.concat (str1 newline) (map dumps records))]
                  ++ last)
       /\ (py_truthy v = true -> py_iter v = None ->
           fst (main aws [])
           = Raised (TypeError ("'" ++ py_type_name v
                                ++ "' object is not iterable")%string)
           /\ calls (snd (main aws [])) = first).
Proof.
  destruct (retrieve_nba_data_run aws) as (v & lines & Hrun & _).
  assert (Hv : fst (retrieve_nba_data aws []) = Returned v)
    by (rewrite Hrun; reflexivity).
  exists v. split; [exact Hv|].
  apply (main_run_cases aws v Hv).
Qed.

(** with the two players delivered and every AWS call refused *)
Lemma main_runs_every_step_witness :
  fst (main Setup_fakes.refused_everywhere []) = Returned tt
  /\ calls (snd (main Setup_fakes.refused_everywhere []))
     = [CreateBucket BUCKET_NAME (Some REGION);
        Sleep 5;
        CreateDatabase GLUE_DATABASE "Database for NBA sports analytics data.";
        HttpGet None None]
       ++ [PutObject BUCKET_NAME "raw-data/nba_player_data.jsonl"
             (String.concat (str1 newline)
                (map dumps [Setup_fakes.player 1 "A" 10;
                            Setup_fakes.player 2 "A" 5]))]
       ++ [CreateTable GLUE_DATABASE nba_players;
           StartQueryExecution "CREATE DATABASE IF NOT EXISTS nba_analytics"
             GLUE_DATABASE ATHENA_OUTPUT].
Proof.
  destruct (main_runs_every_step Setup_fakes.refused_everywhere)
    as (v & Hv & H).
  cbv zeta in H. destruct H as (_ & H & _).
  vm_compute in Hv. injection Hv as <-.
  apply H; reflexivity.
Defined.

Lemma uploads_of_calls t : uploads t = filter is_upload (calls t).
Proof.
  unfold uploads, calls. induction t as [|e t IH]; [reflexivity|].
  destruct e; cbn [filter is_upload is_call]; rewrite ?IH; reflexivity.
Qed.

(** When the feed delivers a list of records that is not empty, a run of
    [main] uploads exactly one object, under the key
    [raw-data/nba_player_data.jsonl]; its lines are the [json.dumps]
    texts of the records, one per record and in the order of the feed,
    even when the bucket could not be created or the upload itself is
    refused; and [main] returns. *)
Theorem uploaded_object_has_a_line_per_record aws records :
  fetch_delivers aws (JArr records) ->
  records <> [] ->
  exists body,
    uploads (snd (main aws []))
    = [PutObject BUCKET_NAME "raw-data/nba_player_data.jsonl" body]
    /\ lines_of body = map dumps records
    /\ fst (main aws []) = Returned tt.
Proof.
  intros Hdelivers Hne.
  pose proof (main_run_cases aws (JArr records)
                (delivered_is_returned aws _ [] Hdelivers)) as H.
  cbv zeta in H. destruct H as (_ & H & _).
  destruct (H records) as [Hret Hcalls].
  - destruct records; [congruence|reflexivity].
  - reflexivity.
  - exists (String.concat (str1 newline) (map dumps records)).
    split; [|split].
    + rewrite uploads_of_calls, Hcalls. reflexivity.
    + apply lines_of_concat, dumps_lines.
    + exact Hret.
Qed.

(** with the two players delivered and every AWS call refused *)
Lemma uploaded_object_has_a_line_per_record_witness :
  exists body,
    uploads (snd (main Setup_fakes.refused_everywhere []))
    = [PutObject BUCKET_NAME "raw-data/nba_player_data.jsonl" body]
    /\ lines_of body
       = map dumps [Setup_fakes.player 1 "A" 10; Setup_fakes.player 2 "A" 5]
    /\ fst (main Setup_fakes.refused_everywhere []) = Returned tt.
Proof.
  apply (uploaded_object_has_a_line_per_record Setup_fakes.refused_everywhere
           [Setup_fakes.player 1 "A" 10; Setup_fakes.player 2 "A" 5]).
  - eexists. split; [reflexivity|]. split; [left; simpl; lia|reflexivity].
  - discriminate.
Defined.

(** Whatever [format_as_jsonl] returns is made of printable ASCII
    characters and newlines only: every other character of the data is
    written as an escape. *)
Theorem serialized_text_is_ascii data t blob t' :
  format_as_jsonl data t = (Returned blob, t') ->
  all_chars printable_or_newline blob = true.
Proof.
  unfold format_as_jsonl. run.
  destruct (py_iter data) as [records|]; [|discriminate].
  intros [= <- _].
  apply all_chars_concat; [reflexivity|].
  apply Forall_forall. intros s Hs. apply in_map_iff in Hs as [r [<- _]].
  apply (all_chars_weaken printable); [|apply dumps_printable].
  intros c Hc. unfold printable_or_newline. rewrite Hc. reflexivity.
Qed.

(** on a record with a name outside ASCII *)
Lemma serialized_text_is_ascii_witness :
  all_chars printable_or_newline
    (String.concat (str1 newline)
       (map dumps [JObj [(of_ascii_text "LastName",
                          JStr [68; 111; 110; 269; 105; 263]%N)];
                   JStr [10; 13]%N]))
  = true.
Proof.
  apply (serialized_text_is_ascii
           (JArr [JObj [(of_ascii_text "LastName",
                         JStr [68; 111; 110; 269; 105; 263]%N)];
                  JStr [10; 13]%N])
           [] _ [Stdout "Formatting data to line-delimited JSON."]).
  reflexivity.
Defined.

(** When the feed delivers a JSON object instead of an array (a body
    that reports a problem under a 200 status, say), the loop of
    [format_as_jsonl] runs over the keys of the [dict]: the object that
    [main] uploads has one line per key, the key as a JSON string, and
    none of the values. *)
Theorem object_from_the_feed_uploads_its_keys aws members :
  fetch_delivers aws (JObj members) ->
  members <> [] ->
  exists body,
    uploads (snd (main aws []))
    = [PutObject BUCKET_NAME "raw-data/nba_player_data.jsonl" body]
    /\ lines_of body
       = map (fun kv => encode_basestring_ascii (fst kv)) members
    /\ fst (main aws []) = Returned tt.
Proof.
  intros Hdelivers Hne.
  pose proof (main_run_cases aws (JObj members)
                (delivered_is_returned aws _ [] Hdelivers)) as H.
  cbv zeta in H. destruct H as (_ & H & _).
  destruct (H (map (fun kv => JStr (fst kv)) members)) as [Hret Hcalls].
  - destruct members; [congruence|reflexivity].
  - reflexivity.
  - eexists. split; [|split].
    + rewrite uploads_of_calls, Hcalls. reflexivity.
    + rewrite lines_of_concat by apply dumps_lines.
      rewrite map_map. reflexivity.
    + exact Hret.
Qed.

(** on a feed that answers with a message *)
Lemma object_from_the_feed_uploads_its_keys_witness :
  exists body,
    uploads (snd (main Setup_fakes.message_feed []))
    = [PutObject BUCKET_NAME "raw-data/nba_player_data.jsonl" body]
    /\ lines_of body
       = map (fun kv => encode_basestring_ascii (fst kv))
           [(of_ascii_text "statusCode", JInt 429);
            (of_ascii_text "message",
             JStr (of_ascii_text "Rate limit is exceeded"))]
    /\ fst (main Setup_fakes.message_feed []) = Returned tt.
Proof.
  apply (object_from_the_feed_uploads_its_keys Setup_fakes.message_feed).
  - eexists. split; [reflexivity|]. split; [left; simpl; lia|reflexivity].
  - discriminate.
Defined.

Example main_on_message_feed :
  uploads (snd (main Setup_fakes.message_feed []))
  = [PutObject "sanalytics-data-lake" "raw-data/nba_player_data.jsonl"
       (Setup_fakes.quoted "'statusCode'" ++ String newline
          (Setup_fakes.quoted "'message'"))%string].
Proof. reflexivity. Qed.

End setup_nba_data_lake_runs.
